(** * The claims joiner of SyntheticClaims, embedded in Rocq

    A shallow embedding of [join_claims_data.py]: the loader, the prefix
    renaming of the reference tables, the aggregation of the clinical fact
    tables, the nine left joins and the final clean-up of the columns.

    The script is written against pandas.  The part of pandas it calls is
    modelled in [Module Pandas] below:

    - a cell is [option string]: [None] is NaN, [Some s] is a value given by
      the text [str] prints for it (column dtypes are not modelled);
    - a [DataFrame] is its column labels and its rows, in order;
    - errors are values of [result], threaded by [bind]. *)

From Stdlib Require Import List String Ascii Bool Arith Lia Permutation.
Import ListNotations.
Local Open Scope string_scope.
Local Open Scope list_scope.

(** ** Exceptions and the error monad *)

Inductive error : Type :=
| FileNotFoundError (path : string)
| KeyError (label : string)
| LabelNotUnique (label : string).

Inductive result (A : Type) : Type :=
| OK (a : A)
| Raise (e : error).

Arguments OK {A} a.
Arguments Raise {A} e.

Definition bind {A B : Type} (r : result A) (k : A -> result B) : result B :=
  match r with
  | OK a => k a
  | Raise e => Raise e
  end.

Notation "x <- r ;; k" := (bind r (fun x => k))
  (at level 61, r at next level, right associativity).

Fixpoint mapM {A B : Type} (f : A -> result B) (l : list A) : result (list B) :=
  match l with
  | [] => OK []
  | a :: l' => b <- f a ;; bs <- mapM f l' ;; OK (b :: bs)
  end.

(** ** Strings as Python uses them here *)

(** [s.endswith(suffix)] *)
Definition endswith (s suffix : string) : bool :=
  let n := String.length s in
  let m := String.length suffix in
  Nat.leb m n && (substring (n - m) m s =? suffix)%string.

(** [c in labels] *)
Definition mem (c : string) (labels : list string) : bool :=
  existsb (String.eqb c) labels.

Module Pandas.

(** ** Cells, rows and frames *)

Abbreviation cell := (option string).
Abbreviation row := (list (option string)).

Record DataFrame : Type := mkDataFrame {
  columns : list string;
  rows : list row
}.

(** [pd.DataFrame(columns=labels)]: the labels and no row. *)
Definition DataFrame_of_columns (labels : list string) : DataFrame :=
  mkDataFrame labels [].

(** [len(df)] *)
Definition len (df : DataFrame) : nat := List.length (rows df).

(** [df.empty]: some axis has length zero. *)
Definition empty (df : DataFrame) : bool :=
  match rows df, columns df with
  | [], _ => true
  | _, [] => true
  | _, _ => false
  end.

Definition cell_eqb (a b : cell) : bool :=
  match a, b with
  | None, None => true
  | Some x, Some y => (x =? y)%string
  | _, _ => false
  end.

Fixpoint key_eqb (k1 k2 : list cell) : bool :=
  match k1, k2 with
  | [], [] => true
  | a :: k1', b :: k2' => cell_eqb a b && key_eqb k1' k2'
  | _, _ => false
  end.

Definition notna (c : cell) : bool :=
  match c with Some _ => true | None => false end.

(** [Series.dropna().astype(str)]: the values that are not NaN, in order. *)
Fixpoint dropna (l : list cell) : list string :=
  match l with
  | [] => []
  | Some s :: l' => s :: dropna l'
  | None :: l' => dropna l'
  end.

(** ** Column labels *)

Fixpoint index_of (c : string) (labels : list string) : option nat :=
  match labels with
  | [] => None
  | x :: labels' =>
      if (x =? c)%string then Some 0
      else match index_of c labels' with
           | Some i => Some (S i)
           | None => None
           end
  end.

(** The position of a label that a join or a group-by is keyed on: the label
    must be there ([KeyError]) and must be there once (pandas refuses a key
    label that names several columns). *)
Definition get_loc (c : string) (labels : list string) : result nat :=
  match count_occ string_dec labels c with
  | 0 => Raise (KeyError c)
  | 1 => match index_of c labels with
         | Some i => OK i
         | None => Raise (KeyError c)
         end
  | _ => Raise (LabelNotUnique c)
  end.

Definition get_locs (cs : list string) (labels : list string) : result (list nat) :=
  mapM (fun c => get_loc c labels) cs.

(** The cell of a row at a position; a row shorter than the header reads as
    NaN there. *)
Definition at_ (i : nat) (r : row) : cell := nth i r None.

Definition key_of (idxs : list nat) (r : row) : list cell :=
  map (fun i => at_ i r) idxs.

(** ** [DataFrame.rename(columns=mapping)] *)

Fixpoint lookup (mapping : list (string * string)) (c : string) : option string :=
  match mapping with
  | [] => None
  | (k, v) :: mapping' => if (k =? c)%string then Some v else lookup mapping' c
  end.

Definition rename_label (mapping : list (string * string)) (c : string) : string :=
  match lookup mapping c with
  | Some v => v
  | None => c
  end.

Definition rename (mapping : list (string * string)) (df : DataFrame) : DataFrame :=
  mkDataFrame (map (rename_label mapping) (columns df)) (rows df).

(** ** [DataFrame.drop(columns=labels, errors='ignore')] *)

Fixpoint select {A : Type} (mask : list bool) (l : list A) : list A :=
  match mask, l with
  | true :: mask', a :: l' => a :: select mask' l'
  | false :: mask', _ :: l' => select mask' l'
  | _, _ => []
  end.

Definition drop (labels : list string) (df : DataFrame) : DataFrame :=
  let mask := map (fun c => negb (mem c labels)) (columns df) in
  mkDataFrame (select mask (columns df)) (map (select mask) (rows df)).

(** ** [pd.merge(left, right, left_on=, right_on=, how='left', suffixes=)]

    Every left row, in order, once for each right row whose key equals its
    key (in the order of the right rows), or once with the right columns NaN
    when there is none.  pandas matches a NaN key with a NaN key.  A label
    found on both sides takes the suffix of its side.  In every call of the
    script the labels of [left_on] differ from those of [right_on], so both
    key columns are kept. *)

Definition overlap_suffix (other : list string) (suffix : string) (c : string) : string :=
  if mem c other then (c ++ suffix)%string else c.

Definition merge_columns (lcols rcols : list string) (suffixes : string * string) : list string :=
  map (overlap_suffix rcols (fst suffixes)) lcols
  ++ map (overlap_suffix lcols (snd suffixes)) rcols.

Definition matches (lidx ridx : list nat) (l : row) (rrows : list row) : list row :=
  filter (fun r => key_eqb (key_of lidx l) (key_of ridx r)) rrows.

Definition merge_row (lidx ridx : list nat) (rwidth : nat) (rrows : list row) (l : row)
  : list row :=
  match matches lidx ridx l rrows with
  | [] => [l ++ repeat None rwidth]
  | ms => map (fun r => l ++ r) ms
  end.

Definition merge (left right : DataFrame) (left_on right_on : list string)
    (suffixes : string * string) : result DataFrame :=
  lidx <- get_locs left_on (columns left) ;;
  ridx <- get_locs right_on (columns right) ;;
  OK (mkDataFrame
        (merge_columns (columns left) (columns right) suffixes)
        (flat_map (merge_row lidx ridx (List.length (columns right)) (rows right))
                  (rows left))).

(** The suffixes [pd.merge] uses when none are given. *)
Definition default_suffixes : string * string := ("_x", "_y").

(** ** [df.groupby(group_cols, as_index=False).agg({col: f, ...})]

    With the defaults of [groupby]: a row with NaN in a group column belongs
    to no group ([dropna=True]); the groups come out ordered by key
    ([sort=True]); inside a group the rows keep the order of the frame. *)

Definition cell_leb (a b : cell) : bool :=
  match a, b with
  | None, _ => true
  | Some _, None => false
  | Some x, Some y => String.leb x y
  end.

Fixpoint key_leb (k1 k2 : list cell) : bool :=
  match k1, k2 with
  | [], _ => true
  | _ :: _, [] => false
  | a :: k1', b :: k2' => if cell_eqb a b then key_leb k1' k2' else cell_leb a b
  end.

Fixpoint insert_key (k : list cell) (ks : list (list cell)) : list (list cell) :=
  match ks with
  | [] => [k]
  | x :: ks' => if key_leb k x then k :: ks else x :: insert_key k ks'
  end.

Definition sort_keys (ks : list (list cell)) : list (list cell) :=
  fold_right insert_key [] ks.

(** The keys met, each once, in the order of their first row. *)
Fixpoint unique_keys (ks : list (list cell)) : list (list cell) :=
  match ks with
  | [] => []
  | k :: ks' => k :: filter (fun k' => negb (key_eqb k k')) (unique_keys ks')
  end.

Definition group_keys (gidx : list nat) (rs : list row) : list (list cell) :=
  sort_keys (unique_keys (filter (forallb notna) (map (key_of gidx) rs))).

(** The rows of one group, in the order of the frame. *)
Definition group_rows (gidx : list nat) (k : list cell) (rs : list row) : list row :=
  filter (fun r => key_eqb (key_of gidx r) k) rs.

Definition groupby_agg (df : DataFrame) (group_cols : list string)
    (aggs : list (string * (list cell -> cell))) : result DataFrame :=
  gidx <- get_locs group_cols (columns df) ;;
  aidx <- get_locs (map fst aggs) (columns df) ;;
  OK (mkDataFrame
        (group_cols ++ map fst aggs)
        (map (fun k =>
                k ++ map (fun '(i, f) => f (map (at_ i) (group_rows gidx k (rows df))))
                         (combine aidx (map snd aggs)))
             (group_keys gidx (rows df)))).

(** ** Files

    A CSV file is its header and its records, each a list of text fields;
    the records of the files read here are as wide as the header.  The file
    system maps a path to the file stored there. *)

Record csv_file : Type := mkCsv {
  header : list string;
  records : list (list string)
}.

Definition filesystem : Type := string -> option csv_file.

Definition write_file (fs : filesystem) (path : string) (f : csv_file) : filesystem :=
  fun p => if (p =? path)%string then Some f else fs p.

(** The fields [read_csv] reads as NaN by default; the empty field is the
    first of them.  Any other field is kept as its text: the numeric types
    [read_csv] infers for a column, and the way [str] prints a number of
    such a column, are outside this model. *)
Definition na_values : list string :=
  [""; "#N/A"; "#N/A N/A"; "#NA"; "-1.#IND"; "-1.#QNAN"; "-NaN"; "-nan";
   "1.#IND"; "1.#QNAN"; "<NA>"; "N/A"; "NA"; "NULL"; "NaN"; "None"; "n/a";
   "nan"; "null"].

Definition parse_field (s : string) : cell :=
  if mem s na_values then None else Some s.

(** The frame of a file: its header as the labels, its fields parsed. *)
Definition parse_csv (f : csv_file) : DataFrame :=
  mkDataFrame (header f) (map (map parse_field) (records f)).

(** [pd.read_csv(path)] *)
Definition read_csv (fs : filesystem) (path : string) : result DataFrame :=
  match fs path with
  | None => Raise (FileNotFoundError path)
  | Some f => OK (parse_csv f)
  end.

Definition print_field (c : cell) : string :=
  match c with
  | Some s => s
  | None => ""
  end.

(** [df.to_csv(path, index=False)] *)
Definition to_csv (df : DataFrame) (path : string) (fs : filesystem) : filesystem :=
  write_file fs path (mkCsv (columns df) (map (map print_field) (rows df))).

End Pandas.

(** * The script [join_claims_data.py] *)

Module JoinClaims.
Import Pandas.

(** ** Reading and writing files: a state and error monad over the file
    system *)

Definition IO (A : Type) : Type := filesystem -> result A * filesystem.

Definition io_ret {A : Type} (a : A) : IO A := fun fs => (OK a, fs).

Definition io_bind {A B : Type} (m : IO A) (k : A -> IO B) : IO B :=
  fun fs =>
    match m fs with
    | (OK a, fs') => k a fs'
    | (Raise e, fs') => (Raise e, fs')
    end.

Definition lift {A : Type} (r : result A) : IO A := fun fs => (r, fs).

Notation "x <~ m ;; k" := (io_bind m (fun x => k))
  (at level 61, m at next level, right associativity).

(** [load_csv(data_dir, filename)] *)
Definition load_csv (data_dir filename : string) : IO DataFrame :=
  fun fs => (read_csv fs (data_dir ++ "/" ++ filename)%string, fs).

(** The lambda of both aggregations: ['|'.join(x.dropna().astype(str))] *)
Definition join_values (x : list cell) : cell :=
  Some (String.concat "|" (dropna x)).

(** [aggregate_clinical_data(df, group_cols, code_col, desc_col)]; the script
    calls it with [code_col] and [desc_col] different. *)
Definition aggregate_clinical_data (df : DataFrame) (group_cols : list string)
    (code_col desc_col : string) : result DataFrame :=
  if empty df then
    OK (DataFrame_of_columns (group_cols ++ [(code_col ++ "_LIST")%string; (desc_col ++ "_LIST")%string]))
  else
    agg_df <- groupby_agg df group_cols [(code_col, join_values); (desc_col, join_values)] ;;
    OK (rename [(code_col, (code_col ++ "_LIST")%string); (desc_col, (desc_col ++ "_LIST")%string)] agg_df).

(** ** Step 1: the ten tables *)

Record Tables : Type := mkTables {
  claims : DataFrame;
  claims_transactions : DataFrame;
  encounters : DataFrame;
  patients : DataFrame;
  providers : DataFrame;
  organizations : DataFrame;
  payers : DataFrame;
  procedures : DataFrame;
  conditions : DataFrame;
  medications : DataFrame
}.

Definition data_dir : string := "synthea_output/csv".
Definition output_file : string := "joined_claims_data.csv".

(** The files of step 1, in the order the script reads them. *)
Definition input_files : list string :=
  ["claims.csv"; "claims_transactions.csv"; "encounters.csv"; "patients.csv";
   "providers.csv"; "organizations.csv"; "payers.csv";
   "procedures.csv"; "conditions.csv"; "medications.csv"].

Definition load_tables : IO Tables :=
  claims <~ load_csv data_dir "claims.csv" ;;
  claims_transactions <~ load_csv data_dir "claims_transactions.csv" ;;
  encounters <~ load_csv data_dir "encounters.csv" ;;
  patients <~ load_csv data_dir "patients.csv" ;;
  providers <~ load_csv data_dir "providers.csv" ;;
  organizations <~ load_csv data_dir "organizations.csv" ;;
  payers <~ load_csv data_dir "payers.csv" ;;
  procedures <~ load_csv data_dir "procedures.csv" ;;
  conditions <~ load_csv data_dir "conditions.csv" ;;
  medications <~ load_csv data_dir "medications.csv" ;;
  io_ret (mkTables claims claims_transactions encounters patients providers
                   organizations payers procedures conditions medications).

(** ** Step 2: the reference tables, their columns prefixed

    [df.rename(columns={col: f'PREFIX{col}' if col != 'Id' else col
                        for col in df.columns})] *)
Definition prefix_columns (prefix : string) (df : DataFrame) : DataFrame :=
  rename (map (fun col => (col, if negb (col =? "Id")%string then (prefix ++ col)%string else col))
              (columns df))
         df.

Definition patients_renamed (t : Tables) : DataFrame := prefix_columns "PATIENT_" (patients t).
Definition providers_renamed (t : Tables) : DataFrame := prefix_columns "PROVIDER_" (providers t).
Definition organizations_renamed (t : Tables) : DataFrame := prefix_columns "ORG_" (organizations t).
Definition payers_renamed (t : Tables) : DataFrame := prefix_columns "PAYER_" (payers t).

(** ** Step 3: the clinical facts of each encounter

    The script writes this block three times, for procedures, conditions and
    medications; [codes] and [descriptions] are the two labels that differ. *)
Definition clinical_agg (codes descriptions : string) (facts : DataFrame) : result DataFrame :=
  if negb (empty facts) then
    agg <- aggregate_clinical_data facts ["PATIENT"; "ENCOUNTER"] "CODE" "DESCRIPTION" ;;
    OK (rename [("CODE_LIST", codes); ("DESCRIPTION_LIST", descriptions)] agg)
  else
    OK (DataFrame_of_columns ["PATIENT"; "ENCOUNTER"; codes; descriptions]).

Definition procedures_agg (t : Tables) : result DataFrame :=
  clinical_agg "PROCEDURE_CODES" "PROCEDURE_DESCRIPTIONS" (procedures t).
Definition conditions_agg (t : Tables) : result DataFrame :=
  clinical_agg "CONDITION_CODES" "CONDITION_DESCRIPTIONS" (conditions t).
Definition medications_agg (t : Tables) : result DataFrame :=
  clinical_agg "MEDICATION_CODES" "MEDICATION_DESCRIPTIONS" (medications t).

(** ** Step 4: transactions with their claim *)

Definition claims_renamed (t : Tables) : DataFrame :=
  rename [("Id", "CLAIM_ID");
          ("PATIENTID", "CLAIM_PATIENTID");
          ("PROVIDERID", "CLAIM_PROVIDERID");
          ("DEPARTMENTID", "CLAIM_DEPARTMENTID");
          ("APPOINTMENTID", "CLAIM_APPOINTMENTID");
          ("SUPERVISINGPROVIDERID", "CLAIM_SUPERVISINGPROVIDERID")]
         (claims t).

Definition join_claims (t : Tables) : result DataFrame :=
  merge (claims_transactions t) (claims_renamed t) ["CLAIMID"] ["CLAIM_ID"] default_suffixes.

(** ** Step 5: encounters *)

Definition encounters_renamed (t : Tables) : DataFrame :=
  rename [("Id", "ENCOUNTER_ID");
          ("START", "ENCOUNTER_START");
          ("STOP", "ENCOUNTER_STOP");
          ("CODE", "ENCOUNTER_CODE");
          ("DESCRIPTION", "ENCOUNTER_DESCRIPTION");
          ("REASONCODE", "ENCOUNTER_REASONCODE");
          ("REASONDESCRIPTION", "ENCOUNTER_REASONDESCRIPTION")]
         (encounters t).

Definition join_encounters (t : Tables) (claims_with_trans : DataFrame) : result DataFrame :=
  merge claims_with_trans (encounters_renamed t)
        ["CLAIM_APPOINTMENTID"] ["ENCOUNTER_ID"] ("", "_ENC").

(** ** Steps 6 to 9: patients, providers, organizations, payers

    Each step is a [pd.merge] followed by
    [joined.drop(columns=['Id'], errors='ignore')]. *)

Definition merge_patients (t : Tables) (joined : DataFrame) : result DataFrame :=
  merge joined (patients_renamed t) ["CLAIM_PATIENTID"] ["Id"] ("", "_PAT").

Definition join_patients (t : Tables) (joined : DataFrame) : result DataFrame :=
  joined <- merge_patients t joined ;;
  OK (drop ["Id"] joined).

Definition merge_providers (t : Tables) (joined : DataFrame) : result DataFrame :=
  merge joined (providers_renamed t) ["PROVIDERID"] ["Id"] ("", "_PROV").

Definition join_providers (t : Tables) (joined : DataFrame) : result DataFrame :=
  joined <- merge_providers t joined ;;
  OK (drop ["Id"] joined).

Definition merge_organizations (t : Tables) (joined : DataFrame) : result DataFrame :=
  merge joined (organizations_renamed t) ["ORGANIZATION"] ["Id"] ("", "_ORG").

Definition join_organizations (t : Tables) (joined : DataFrame) : result DataFrame :=
  joined <- merge_organizations t joined ;;
  OK (drop ["Id"] joined).

Definition merge_payers (t : Tables) (joined : DataFrame) : result DataFrame :=
  merge joined (payers_renamed t) ["PAYER"] ["Id"] ("", "_PAYER").

Definition join_payers (t : Tables) (joined : DataFrame) : result DataFrame :=
  joined <- merge_payers t joined ;;
  OK (drop ["Id"] joined).

(** ** Step 10: the aggregated clinical facts

    Three times the same merge and
    [joined.drop(columns=['PATIENT', 'ENCOUNTER'], errors='ignore')]; the
    aggregate and the right suffix differ. *)

Definition merge_clinical (suffix : string) (agg joined : DataFrame) : result DataFrame :=
  merge joined agg ["CLAIM_PATIENTID"; "ENCOUNTER_ID"] ["PATIENT"; "ENCOUNTER"] ("", suffix).

Definition join_clinical (suffix : string) (agg joined : DataFrame) : result DataFrame :=
  joined <- merge_clinical suffix agg joined ;;
  OK (drop ["PATIENT"; "ENCOUNTER"] joined).

Definition join_procedures : DataFrame -> DataFrame -> result DataFrame := join_clinical "_PROC".
Definition join_conditions : DataFrame -> DataFrame -> result DataFrame := join_clinical "_COND".
Definition join_medications : DataFrame -> DataFrame -> result DataFrame := join_clinical "_MED".

(** ** Step 11: the columns a join marked as duplicates *)

Definition conflict_marker (col : string) : bool :=
  endswith col "_x" || endswith col "_y".

Definition duplicate_cols (joined : DataFrame) : list string :=
  filter conflict_marker (columns joined).

Definition cleanup (joined : DataFrame) : DataFrame :=
  match duplicate_cols joined with
  | [] => joined
  | cols => drop cols joined
  end.

(** ** Steps 2 to 11 on the loaded tables *)

Definition join_tables (t : Tables) : result DataFrame :=
  procedures_agg <- procedures_agg t ;;
  conditions_agg <- conditions_agg t ;;
  medications_agg <- medications_agg t ;;
  claims_with_trans <- join_claims t ;;
  joined <- join_encounters t claims_with_trans ;;
  joined <- join_patients t joined ;;
  joined <- join_providers t joined ;;
  joined <- join_organizations t joined ;;
  joined <- join_payers t joined ;;
  joined <- join_procedures procedures_agg joined ;;
  joined <- join_conditions conditions_agg joined ;;
  joined <- join_medications medications_agg joined ;;
  OK (cleanup joined).

(** ** [main()]: load, join, save (step 12)

    What [main] prints (the banners, the row counts after each step, the
    size of the file and the count of columns per category) acts on neither
    the tables nor the files, and is left out. *)

Definition main : IO DataFrame :=
  t <~ load_tables ;;
  joined <~ lift (join_tables t) ;;
  fun fs => (OK joined, to_csv joined output_file fs).

End JoinClaims.

(** * Vocabulary of the statements *)

Module Props.
Import Pandas JoinClaims.

(** No two of the keys are equal. *)
Fixpoint all_distinct (ks : list (list cell)) : bool :=
  match ks with
  | [] => true
  | k :: ks' => negb (existsb (key_eqb k) ks') && all_distinct ks'
  end.

(** The frame has the column [key] once, and no value twice in it. *)
Definition keyed_by (df : DataFrame) (key : string) : bool :=
  match get_locs [key] (columns df) with
  | OK idx => all_distinct (map (key_of idx) (rows df))
  | Raise _ => false
  end.

(** The six tables a join looks up by [Id] are keyed by it. *)
Definition keyed_by_Id (t : Tables) : bool :=
  keyed_by (claims t) "Id" && keyed_by (encounters t) "Id"
  && keyed_by (patients t) "Id" && keyed_by (providers t) "Id"
  && keyed_by (organizations t) "Id" && keyed_by (payers t) "Id".

(** Every row is as wide as the header. *)
Definition rectangular (df : DataFrame) : Prop :=
  Forall (fun r => List.length r = List.length (columns df)) (rows df).




(** The number of rows a left join gives a left row: one for each right row
    with its key, one when there is none. *)
Definition fan_out (lidx ridx : list nat) (rrows : list row) (l : row) : nat :=
  Nat.max 1 (List.length (matches lidx ridx l rrows)).



(** Where [load_csv] looks for a file of step 1. *)
Definition path_of (filename : string) : string := (data_dir ++ "/" ++ filename)%string.

(** The three kinds of clinical fact: the labels of the two aggregated
    columns and the right suffix of the join. *)
Definition fact_kinds : list (string * string * string) :=
  [("PROCEDURE_CODES", "PROCEDURE_DESCRIPTIONS", "_PROC");
   ("CONDITION_CODES", "CONDITION_DESCRIPTIONS", "_COND");
   ("MEDICATION_CODES", "MEDICATION_DESCRIPTIONS", "_MED")].

(** The label a column of a reference table takes in step 2. *)
Definition prefixed (prefix col : string) : string :=
  if negb (col =? "Id")%string then (prefix ++ col)%string else col.

(** The prefixes of step 2. *)
Definition dimension_prefixes : list string :=
  ["PATIENT_"; "PROVIDER_"; "ORG_"; "PAYER_"].

End Props.

(** * Sample tables *)

Module Samples.
Import Pandas JoinClaims.

Definition table (labels : list string) (recs : list (list string)) : DataFrame :=
  parse_csv (mkCsv labels recs).

Definition fact_labels : list string := ["PATIENT"; "ENCOUNTER"; "CODE"; "DESCRIPTION"].

(** One transaction of claim [C1], whose appointment [E9] is no encounter. *)
Definition sample_claims : DataFrame :=
  table ["Id"; "PATIENTID"; "PROVIDERID"; "APPOINTMENTID"] [["C1"; "P1"; "PR9"; "E9"]].
Definition sample_transactions : DataFrame :=
  table ["ID"; "CLAIMID"; "PATIENTID"; "PROVIDERID"; "AMOUNT"]
        [["T1"; "C1"; "P1"; "PR1"; "10"]].
Definition sample_encounters : DataFrame :=
  table ["Id"; "START"; "PATIENT"; "ORGANIZATION"; "PAYER"; "CODE"]
        [["E1"; "2020-01-01"; "P1"; "O1"; "Y1"; "185345009"]].
Definition sample_patients : DataFrame := table ["Id"; "LAST"] [["P1"; "Ann"]].
Definition sample_providers : DataFrame := table ["Id"; "NAME"] [["PR1"; "Dr A"]].
Definition sample_organizations : DataFrame := table ["Id"; "NAME"] [["O1"; "Clinic"]].
Definition sample_payers : DataFrame := table ["Id"; "NAME"] [["Y1"; "Payer"]].

(** The facts of the example of the specification, and one more group. *)
Definition sample_facts : csv_file :=
  mkCsv fact_labels
        [["P1"; "E1"; "123"; "Flu"];
         ["P0"; "E0"; "1"; "Exam"];
         ["P1"; "E1"; "456"; ""];
         ["P1"; "E1"; "789"; "Cold"]].

Definition sample_tables : Tables :=
  mkTables sample_claims sample_transactions sample_encounters sample_patients
           sample_providers sample_organizations sample_payers
           (parse_csv sample_facts) (table fact_labels []) (table fact_labels []).

(** The same tables, with two providers of [Id] [PR1]. *)
Definition duplicate_providers : DataFrame :=
  table ["Id"; "NAME"] [["PR1"; "Dr A"]; ["PR1"; "Dr B"]].

Definition sample_tables_duplicate_provider : Tables :=
  mkTables sample_claims sample_transactions sample_encounters sample_patients
           duplicate_providers sample_organizations sample_payers
           (parse_csv sample_facts) (table fact_labels []) (table fact_labels []).

(** A file system holding the ten files of [sample_tables]. *)
Definition empty_fs : filesystem := fun _ => None.

Definition csv_of (df : DataFrame) : csv_file :=
  mkCsv (columns df) (map (map print_field) (rows df)).

Definition sample_fs : filesystem :=
  fold_right
    (fun '(name, df) fs => write_file fs (data_dir ++ "/" ++ name)%string (csv_of df))
    empty_fs
    [("claims.csv", sample_claims);
     ("claims_transactions.csv", sample_transactions);
     ("encounters.csv", sample_encounters);
     ("patients.csv", sample_patients);
     ("providers.csv", sample_providers);
     ("organizations.csv", sample_organizations);
     ("payers.csv", sample_payers);
     ("procedures.csv", parse_csv sample_facts);
     ("conditions.csv", table fact_labels []);
     ("medications.csv", table fact_labels [])].

(** The same file system without [patients.csv]. *)
Definition sample_fs_missing : filesystem :=
  fun p => if (p =? "synthea_output/csv/patients.csv")%string then None else sample_fs p.

End Samples.

(** * The report at the end of [main], and more vocabulary *)

Module Report.
Import Pandas JoinClaims.

(** [sub in s], for two strings. *)
Fixpoint contains (sub s : string) : bool :=
  String.prefix sub s
  || match s with
     | EmptyString => false
     | String _ s' => contains sub s'
     end.

(** The dictionary [col_categories] of [main]: for each category, in the
    order of the dictionary, the columns of the joined table counted in
    it. *)
Definition col_categories (joined : DataFrame) : list (string * list string) :=
  [("Transaction",
    filter (fun c => contains "TRANS" c
                     || mem c ["ID"; "CLAIMID"; "TYPE"; "AMOUNT"; "PAYMENTS"; "ADJUSTMENTS"])
           (columns joined));
   ("Claim",
    filter (fun c => contains "CLAIM" c || contains "DIAGNOSIS" c || contains "STATUS" c)
           (columns joined));
   ("Encounter",
    filter (fun c => contains "ENCOUNTER" c || contains "APPOINTMENT" c) (columns joined));
   ("Patient", filter (fun c => contains "PATIENT" c) (columns joined));
   ("Provider", filter (fun c => contains "PROVIDER" c) (columns joined));
   ("Organization", filter (fun c => contains "ORG_" c) (columns joined));
   ("Payer", filter (fun c => contains "PAYER" c) (columns joined));
   ("Clinical",
    filter (fun c => existsb (fun x => contains x c) ["PROCEDURE"; "CONDITION"; "MEDICATION"])
           (columns joined))].

(** The lines of the summary: a category with no column prints nothing. *)
Definition category_counts (joined : DataFrame) : list (string * nat) :=
  map (fun '(category, cols) => (category, List.length cols))
      (filter (fun '(_, cols) => match cols with [] => false | _ => true end)
              (col_categories joined)).

(** The columns counted in a category; none when there is no such
    category. *)
Definition category (name : string) (joined : DataFrame) : list string :=
  match find (fun '(category, _) => (category =? name)%string) (col_categories joined) with
  | Some (_, cols) => cols
  | None => []
  end.

End Report.

Module MoreProps.
Import Pandas JoinClaims Props.




(** The seven tables of which every cell reaches the joined table. *)
Definition rectangular_tables (t : Tables) : Prop :=
  rectangular (claims t) /\ rectangular (claims_transactions t)
  /\ rectangular (encounters t) /\ rectangular (patients t)
  /\ rectangular (providers t) /\ rectangular (organizations t)
  /\ rectangular (payers t).

(** A file whose records are as wide as its header. *)
Definition rectangular_csv (f : csv_file) : Prop :=
  Forall (fun rec => List.length rec = List.length (header f)) (records f).








End MoreProps.

(** * Lemmas on the model of pandas *)

Module PandasFacts.
Import Pandas.

Lemma bind_OK {A B : Type} (r : result A) (k : A -> result B) (b : B) :
  bind r k = OK b -> exists a, r = OK a /\ k a = OK b.
Proof.
  destruct r as [a | e]; simpl; intros H.
  - exists a. split; [reflexivity | exact H].
  - discriminate H.
Qed.

Lemma cell_eqb_eq (a b : cell) : cell_eqb a b = true <-> a = b.
Proof.
  destruct a as [x |], b as [y |]; simpl; split; intros H;
    try discriminate; try reflexivity.
  - apply String.eqb_eq in H. now subst.
  - injection H as ->. apply String.eqb_refl.
Qed.

Lemma key_eqb_eq (k1 k2 : list cell) : key_eqb k1 k2 = true <-> k1 = k2.
Proof.
  revert k2. induction k1 as [| a k1 IH]; intros [| b k2]; simpl;
    split; intros H; try discriminate; try reflexivity.
  - apply andb_true_iff in H as [Hab Hk].
    apply cell_eqb_eq in Hab. apply IH in Hk. now subst.
  - injection H as -> ->. apply andb_true_iff. split.
    + now apply cell_eqb_eq.
    + now apply IH.
Qed.

Lemma key_eqb_refl (k : list cell) : key_eqb k k = true.
Proof. now apply key_eqb_eq. Qed.

(** *** Positions of labels *)

Lemma index_of_nth_error (c : string) (labels : list string) (i : nat) :
  index_of c labels = Some i -> nth_error labels i = Some c.
Proof.
  revert i. induction labels as [| x labels IH]; simpl; intros i H.
  - discriminate.
  - destruct (String.eqb_spec x c) as [-> | Hne].
    + injection H as <-. reflexivity.
    + destruct (index_of c labels) as [j |]; [| discriminate].
      injection H as <-. simpl. now apply IH.
Qed.

Lemma count_occ_one_unique (c : string) (labels : list string) (i j : nat) :
  count_occ string_dec labels c = 1 ->
  nth_error labels i = Some c -> nth_error labels j = Some c -> i = j.
Proof.
  revert i j. induction labels as [| x labels IH]; intros i j Hc Hi Hj.
  - destruct i; discriminate.
  - simpl in Hc. destruct (string_dec x c) as [-> | Hne].
    + injection Hc as Hc.
      assert (Hnot : ~ In c labels) by (now apply count_occ_not_In with (eq_dec := string_dec)).
      destruct i as [| i], j as [| j]; try reflexivity; exfalso; apply Hnot.
      * simpl in Hj. eapply nth_error_In; eauto.
      * simpl in Hi. eapply nth_error_In; eauto.
      * simpl in Hi. eapply nth_error_In; eauto.
    + destruct i as [| i]; [simpl in Hi; congruence |].
      destruct j as [| j]; [simpl in Hj; congruence |].
      f_equal. now apply IH.
Qed.

Lemma get_loc_OK (c : string) (labels : list string) (i : nat) :
  get_loc c labels = OK i ->
  nth_error labels i = Some c /\ count_occ string_dec labels c = 1.
Proof.
  unfold get_loc. destruct (count_occ string_dec labels c) as [| [| n]] eqn:Hc;
    try discriminate.
  destruct (index_of c labels) as [j |] eqn:Hi; [| discriminate].
  intros H. injection H as <-. split; [now apply index_of_nth_error | reflexivity].
Qed.

Lemma get_loc_unique (c : string) (labels : list string) (i j : nat) :
  get_loc c labels = OK i -> nth_error labels j = Some c -> j = i.
Proof.
  intros H Hj. apply get_loc_OK in H as [Hi Hc].
  eapply count_occ_one_unique; eauto.
Qed.


Lemma get_locs_1 (c : string) (labels : list string) (idx : list nat) :
  get_locs [c] labels = OK idx -> exists i, get_loc c labels = OK i /\ idx = [i].
Proof.
  unfold get_locs. simpl. destruct (get_loc c labels) as [i | e]; simpl; intros H.
  - injection H as <-. now exists i.
  - discriminate.
Qed.


Lemma get_locs_2_intro (c d : string) (labels : list string) (i j : nat) :
  get_loc c labels = OK i -> get_loc d labels = OK j ->
  get_locs [c; d] labels = OK [i; j].
Proof. unfold get_locs. simpl. now intros -> ->. Qed.

Lemma get_locs_2 (c d : string) (labels : list string) (idx : list nat) :
  get_locs [c; d] labels = OK idx ->
  exists i j, get_loc c labels = OK i /\ get_loc d labels = OK j /\ idx = [i; j].
Proof.
  unfold get_locs. simpl.
  destruct (get_loc c labels) as [i | e]; simpl; [| discriminate].
  destruct (get_loc d labels) as [j | e]; simpl; [| discriminate].
  intros H. injection H as <-. now exists i, j.
Qed.


(** *** Left joins *)

Lemma merge_OK (left right : DataFrame) (left_on right_on : list string)
    (suffixes : string * string) (m : DataFrame) :
  merge left right left_on right_on suffixes = OK m ->
  exists lidx ridx,
    get_locs left_on (columns left) = OK lidx /\
    get_locs right_on (columns right) = OK ridx /\
    m = mkDataFrame
          (merge_columns (columns left) (columns right) suffixes)
          (flat_map (merge_row lidx ridx (List.length (columns right)) (rows right))
                    (rows left)).
Proof.
  unfold merge. intros H.
  apply bind_OK in H as (lidx & Hl & H).
  apply bind_OK in H as (ridx & Hr & H).
  injection H as <-. now exists lidx, ridx.
Qed.


Lemma merge_row_length (lidx ridx : list nat) (w : nat) (rrows : list row) (l : row) :
  List.length (merge_row lidx ridx w rrows l) = Props.fan_out lidx ridx rrows l.
Proof.
  unfold merge_row, Props.fan_out.
  destruct (matches lidx ridx l rrows) as [| r ms]; [reflexivity |].
  rewrite length_map. reflexivity.
Qed.


Lemma flat_map_length_sum {A B : Type} (f : A -> list B) (l : list A) :
  List.length (flat_map f l) = list_sum (map (fun a => List.length (f a)) l).
Proof.
  induction l as [| a l IH]; simpl; [reflexivity |].
  now rewrite length_app, IH.
Qed.

Lemma list_sum_ones {A : Type} (g : A -> nat) (l : list A) :
  (forall a, In a l -> g a = 1) -> list_sum (map g l) = List.length l.
Proof.
  induction l as [| a l IH]; simpl; intros H; [reflexivity |].
  rewrite (H a (or_introl eq_refl)), IH; [reflexivity |].
  intros b Hb. apply H. now right.
Qed.

Lemma all_distinct_matches (k : list cell) (ks : list (list cell)) :
  Props.all_distinct ks = true ->
  List.length (filter (key_eqb k) ks) <= 1.
Proof.
  induction ks as [| x ks IH]; simpl; intros H; [lia |].
  apply andb_true_iff in H as [Hx Hks].
  destruct (key_eqb k x) eqn:E.
  - apply key_eqb_eq in E. subst x. simpl.
    assert (Hnone : filter (key_eqb k) ks = []).
    { apply negb_true_iff in Hx.
      clear IH Hks. induction ks as [| y ks IH]; simpl in *; [reflexivity |].
      apply orb_false_iff in Hx as [Hy Hx].
      rewrite Hy. now apply IH. }
    rewrite Hnone. simpl. lia.
  - now apply IH.
Qed.

Lemma filter_map_comm {A B : Type} (f : A -> B) (p : B -> bool) (l : list A) :
  filter p (map f l) = map f (filter (fun a => p (f a)) l).
Proof.
  induction l as [| a l IH]; simpl; [reflexivity |].
  destruct (p (f a)); simpl; now rewrite IH.
Qed.

Lemma fan_out_unique (lidx ridx : list nat) (rrows : list row) (l : row) :
  Props.all_distinct (map (key_of ridx) rrows) = true ->
  Props.fan_out lidx ridx rrows l = 1.
Proof.
  intros H. unfold Props.fan_out, matches.
  apply (all_distinct_matches (key_of lidx l)) in H.
  rewrite filter_map_comm, length_map in H.
  destruct (filter _ rrows) as [| r [| r' ms]]; simpl in *; try reflexivity; lia.
Qed.

(** The rows of a left join: as many as the left rows give. *)
Lemma merge_len (left right : DataFrame) (left_on right_on : list string)
    (suffixes : string * string) (m : DataFrame) :
  merge left right left_on right_on suffixes = OK m ->
  exists lidx ridx,
    get_locs left_on (columns left) = OK lidx /\
    get_locs right_on (columns right) = OK ridx /\
    len m = list_sum (map (Props.fan_out lidx ridx (rows right)) (rows left)).
Proof.
  intros H. apply merge_OK in H as (lidx & ridx & Hl & Hr & ->).
  exists lidx, ridx. repeat split; try assumption.
  unfold len. simpl. rewrite flat_map_length_sum.
  f_equal. apply map_ext. intros l. apply merge_row_length.
Qed.

(** A left join drops no left row. *)
Lemma merge_len_ge (left right : DataFrame) (left_on right_on : list string)
    (suffixes : string * string) (m : DataFrame) :
  merge left right left_on right_on suffixes = OK m -> len left <= len m.
Proof.
  intros H. apply merge_len in H as (lidx & ridx & _ & _ & ->).
  unfold len. induction (rows left) as [| l ls IH]; simpl; [lia |].
  unfold Props.fan_out at 1. lia.
Qed.

(** Against a right table whose key has no value twice, a left join has the
    rows of its left table, one for one. *)
Lemma merge_len_unique (left right : DataFrame) (left_on right_on : list string)
    (suffixes : string * string) (m : DataFrame) :
  merge left right left_on right_on suffixes = OK m ->
  (forall ridx, get_locs right_on (columns right) = OK ridx ->
                Props.all_distinct (map (key_of ridx) (rows right)) = true) ->
  len m = len left.
Proof.
  intros H Hu. apply merge_len in H as (lidx & ridx & Hl & Hr & ->).
  unfold len. apply list_sum_ones. intros l _.
  apply fan_out_unique. now apply Hu.
Qed.

Lemma drop_len (labels : list string) (df : DataFrame) : len (drop labels df) = len df.
Proof. unfold len, drop. simpl. apply length_map. Qed.

(** *** Keys without repetition *)

Lemma existsb_key_eqb_In (k : list cell) (ks : list (list cell)) :
  existsb (key_eqb k) ks = true <-> In k ks.
Proof.
  rewrite existsb_exists. split.
  - intros (x & Hx & E). apply key_eqb_eq in E. now subst.
  - intros H. exists k. split; [assumption | apply key_eqb_refl].
Qed.

Lemma all_distinct_NoDup (ks : list (list cell)) :
  Props.all_distinct ks = true <-> NoDup ks.
Proof.
  induction ks as [| k ks IH]; simpl.
  - split; [constructor | reflexivity].
  - rewrite andb_true_iff, negb_true_iff, IH. split.
    + intros [Hk Hks]. constructor; [| assumption].
      intros Hin. apply existsb_key_eqb_In in Hin. congruence.
    + intros H. inversion H as [| ? ? Hk Hks]; subst. split; [| assumption].
      destruct (existsb (key_eqb k) ks) eqn:E; [| reflexivity].
      apply existsb_key_eqb_In in E. contradiction.
Qed.

Lemma unique_keys_In (k : list cell) (ks : list (list cell)) :
  In k (unique_keys ks) <-> In k ks.
Proof.
  induction ks as [| x ks IH]; simpl; [tauto |].
  rewrite filter_In, IH. split.
  - intros [H | [H _]]; auto.
  - intros [H | H]; [now left |].
    destruct (key_eqb x k) eqn:E.
    + apply key_eqb_eq in E. now left.
    + right. split; [assumption | reflexivity].
Qed.

Lemma unique_keys_NoDup (ks : list (list cell)) : NoDup (unique_keys ks).
Proof.
  induction ks as [| x ks IH]; simpl; constructor.
  - intros H. apply filter_In in H as [_ H].
    now rewrite key_eqb_refl in H.
  - now apply NoDup_filter.
Qed.

Lemma insert_key_Permutation (k : list cell) (ks : list (list cell)) :
  Permutation (insert_key k ks) (k :: ks).
Proof.
  induction ks as [| x ks IH]; simpl; [reflexivity |].
  destruct (key_leb k x); [reflexivity |].
  rewrite IH. apply perm_swap.
Qed.

Lemma sort_keys_Permutation (ks : list (list cell)) : Permutation (sort_keys ks) ks.
Proof.
  induction ks as [| k ks IH]; simpl; [reflexivity |].
  rewrite insert_key_Permutation. now constructor.
Qed.

Lemma group_keys_NoDup (gidx : list nat) (rs : list row) : NoDup (group_keys gidx rs).
Proof.
  unfold group_keys.
  eapply Permutation_NoDup; [symmetry; apply sort_keys_Permutation |].
  apply unique_keys_NoDup.
Qed.

(** The keys of the groups: the keys of the rows that have no NaN in them. *)
Lemma group_keys_In (gidx : list nat) (rs : list row) (k : list cell) :
  In k (group_keys gidx rs) <->
  forallb notna k = true /\ exists r, In r rs /\ key_of gidx r = k.
Proof.
  unfold group_keys. split.
  - intros H. apply (Permutation_in _ (sort_keys_Permutation _)) in H.
    apply unique_keys_In, filter_In in H as [H Hna].
    apply in_map_iff in H as (r & Hr & Hin). split; [assumption | now exists r].
  - intros [Hna (r & Hin & Hr)].
    apply (Permutation_in _ (Permutation_sym (sort_keys_Permutation _))).
    apply unique_keys_In, filter_In. split; [| assumption].
    apply in_map_iff. now exists r.
Qed.

Lemma group_keys_length (gidx : list nat) (rs : list row) (k : list cell) :
  In k (group_keys gidx rs) -> List.length k = List.length gidx.
Proof.
  intros H. apply group_keys_In in H as [_ (r & _ & <-)].
  unfold key_of. apply length_map.
Qed.

(** *** Renaming *)

Lemma rename_comprehension (g : string -> string) (labels : list string) (c : string) :
  In c labels ->
  rename_label (map (fun col => (col, g col)) labels) c = g c.
Proof.
  unfold rename_label. induction labels as [| x labels IH]; simpl; [tauto |].
  intros Hc. destruct (String.eqb_spec x c) as [-> | Hne]; [reflexivity |].
  apply IH. destruct Hc; [contradiction | assumption].
Qed.

Lemma rename_comprehension_columns (g : string -> string) (df : DataFrame) :
  columns (rename (map (fun col => (col, g col)) (columns df)) df) = map g (columns df).
Proof.
  simpl. apply map_ext_in. intros c Hc. now apply rename_comprehension.
Qed.

(** A table keyed by [k], its labels renamed by [f]: whatever position the
    join finds for the renamed key is the position of [k]. *)
Lemma keyed_by_renamed (f : string -> string) (df : DataFrame) (k k' : string)
    (ridx : list nat) :
  f k = k' ->
  Props.keyed_by df k = true ->
  get_locs [k'] (map f (columns df)) = OK ridx ->
  Props.all_distinct (map (key_of ridx) (rows df)) = true.
Proof.
  intros Hf Hk Hr. unfold Props.keyed_by in Hk.
  destruct (get_locs [k] (columns df)) as [idx |] eqn:Hidx; [| discriminate].
  apply get_locs_1 in Hidx as (i & Hi & ->).
  apply get_locs_1 in Hr as (j & Hj & ->).
  assert (E : i = j).
  { eapply get_loc_unique; [exact Hj |].
    rewrite nth_error_map. apply get_loc_OK in Hi as [Hi _]. rewrite Hi. simpl. now rewrite Hf. }
  now subst j.
Qed.

End PandasFacts.

(** * The script, step by step *)

Module JoinClaimsFacts.
Import Pandas JoinClaims Props PandasFacts.

Ltac inv_bind H a Ha := apply bind_OK in H as (a & Ha & H).

Lemma prefix_columns_columns (prefix : string) (df : DataFrame) :
  columns (prefix_columns prefix df) = map (prefixed prefix) (columns df).
Proof. unfold prefix_columns. apply (rename_comprehension_columns (prefixed prefix)). Qed.

Lemma prefix_columns_rows (prefix : string) (df : DataFrame) :
  rows (prefix_columns prefix df) = rows df.
Proof. reflexivity. Qed.

(** *** The aggregate of a fact table *)

Lemma clinical_agg_empty (codes descriptions : string) (facts : DataFrame) :
  empty facts = true ->
  clinical_agg codes descriptions facts =
  OK (DataFrame_of_columns ["PATIENT"; "ENCOUNTER"; codes; descriptions]).
Proof. unfold clinical_agg. now intros ->. Qed.

Lemma clinical_agg_nonempty (codes descriptions : string) (facts agg : DataFrame) :
  empty facts = false ->
  clinical_agg codes descriptions facts = OK agg ->
  exists pi ei ci di,
    get_loc "PATIENT" (columns facts) = OK pi /\
    get_loc "ENCOUNTER" (columns facts) = OK ei /\
    get_loc "CODE" (columns facts) = OK ci /\
    get_loc "DESCRIPTION" (columns facts) = OK di /\
    agg = mkDataFrame
            ["PATIENT"; "ENCOUNTER"; codes; descriptions]
            (map (fun k =>
                    k ++ [join_values (map (at_ ci) (group_rows [pi; ei] k (rows facts)));
                          join_values (map (at_ di) (group_rows [pi; ei] k (rows facts)))])
                 (group_keys [pi; ei] (rows facts))).
Proof.
  intros Hne H. unfold clinical_agg in H. rewrite Hne in H. simpl in H.
  inv_bind H a Ha. injection H as <-.
  unfold aggregate_clinical_data in Ha. rewrite Hne in Ha.
  inv_bind Ha g Hg. injection Ha as <-.
  unfold groupby_agg in Hg. inv_bind Hg gidx Hgidx. inv_bind Hg aidx Haidx.
  injection Hg as <-.
  apply get_locs_2 in Hgidx as (pi & ei & Hp & He & ->).
  apply get_locs_2 in Haidx as (ci & di & Hc & Hd & ->).
  exists pi, ei, ci, di. repeat split; try assumption.
Qed.


(** The aggregate has no key twice, wherever the join finds its key. *)
Lemma clinical_agg_keyed (codes descriptions : string) (facts agg : DataFrame)
    (ridx : list nat) :
  clinical_agg codes descriptions facts = OK agg ->
  get_locs ["PATIENT"; "ENCOUNTER"] (columns agg) = OK ridx ->
  all_distinct (map (key_of ridx) (rows agg)) = true.
Proof.
  intros H Hr. destruct (empty facts) eqn:Hne.
  - rewrite clinical_agg_empty in H by assumption. injection H as <-. reflexivity.
  - apply clinical_agg_nonempty in H as (pi & ei & ci & di & _ & _ & _ & _ & ->);
      [| assumption].
    simpl in Hr. apply get_locs_2 in Hr as (i & j & Hi & Hj & ->).
    assert (i = 0) as -> by (symmetry; eapply get_loc_unique; [exact Hi | reflexivity]).
    assert (j = 1) as -> by (symmetry; eapply get_loc_unique; [exact Hj | reflexivity]).
    simpl rows. rewrite map_map. apply all_distinct_NoDup.
    erewrite map_ext_in; [rewrite map_id; apply group_keys_NoDup |].
    intros k Hk. apply group_keys_length in Hk.
    destruct k as [| a [| b [| c k]]]; try discriminate. reflexivity.
Qed.

(** *** Row counts, join by join *)

Lemma join_claims_len (t : Tables) (m : DataFrame) :
  keyed_by (claims t) "Id" = true ->
  join_claims t = OK m ->
  len m = len (claims_transactions t).
Proof.
  intros Hk H. unfold join_claims in H.
  eapply merge_len_unique; [exact H |].
  intros ridx Hr.
  change (rows (claims_renamed t)) with (rows (claims t)).
  eapply keyed_by_renamed; [| exact Hk | exact Hr]. reflexivity.
Qed.

Lemma join_encounters_len (t : Tables) (left m : DataFrame) :
  keyed_by (encounters t) "Id" = true ->
  join_encounters t left = OK m ->
  len m = len left.
Proof.
  intros Hk H. unfold join_encounters in H.
  eapply merge_len_unique; [exact H |].
  intros ridx Hr.
  change (rows (encounters_renamed t)) with (rows (encounters t)).
  eapply keyed_by_renamed; [| exact Hk | exact Hr]. reflexivity.
Qed.

Lemma merge_dimension_len (prefix key suffix : string) (dim left m : DataFrame) :
  keyed_by dim "Id" = true ->
  merge left (prefix_columns prefix dim) [key] ["Id"] ("", suffix) = OK m ->
  len (drop ["Id"] m) = len left.
Proof.
  intros Hk H. rewrite drop_len.
  eapply merge_len_unique; [exact H |].
  intros ridx Hr. rewrite prefix_columns_columns in Hr.
  rewrite prefix_columns_rows.
  eapply keyed_by_renamed; [| exact Hk | exact Hr]. reflexivity.
Qed.

Lemma join_clinical_len (codes descriptions suffix : string) (facts agg left m : DataFrame) :
  clinical_agg codes descriptions facts = OK agg ->
  join_clinical suffix agg left = OK m ->
  len m = len left.
Proof.
  intros Hagg H. unfold join_clinical, merge_clinical in H.
  inv_bind H j Hj. injection H as <-. rewrite drop_len.
  eapply merge_len_unique; [exact Hj |].
  intros ridx Hr. eapply clinical_agg_keyed; eauto.
Qed.

(** ** Row-count preservation *)

(** C1. When the claim table and the five tables joined on their [Id]
    (encounters, patients, providers, organizations, payers) are keyed by
    it, the table the joins produce has exactly as many rows as the table of
    claim transactions. *)
Theorem row_count_preservation (t : Tables) (out : DataFrame) :
  keyed_by_Id t = true ->
  join_tables t = OK out ->
  len out = len (claims_transactions t).
Proof.
  intros Hk H. unfold keyed_by_Id in Hk.
  apply andb_true_iff in Hk as [Hk Kpay]. apply andb_true_iff in Hk as [Hk Korg].
  apply andb_true_iff in Hk as [Hk Kprov]. apply andb_true_iff in Hk as [Hk Kpat].
  apply andb_true_iff in Hk as [Kclaim Kenc].
  unfold join_tables in H.
  inv_bind H pa Hpa. inv_bind H ca Hca. inv_bind H ma Hma.
  inv_bind H j4 H4. inv_bind H j5 H5. inv_bind H j6 H6. inv_bind H j7 H7.
  inv_bind H j8 H8. inv_bind H j9 H9.
  inv_bind H j10 H10. inv_bind H j11 H11. inv_bind H j12 H12.
  injection H as <-.
  assert (Hclean : len (cleanup j12) = len j12).
  { unfold cleanup. destruct (duplicate_cols j12); [reflexivity | apply drop_len]. }
  rewrite Hclean.
  rewrite (join_clinical_len _ _ _ _ _ _ _ Hma H12).
  rewrite (join_clinical_len _ _ _ _ _ _ _ Hca H11).
  rewrite (join_clinical_len _ _ _ _ _ _ _ Hpa H10).
  unfold join_payers, merge_payers, payers_renamed in H9.
  inv_bind H9 m9 Hm9. injection H9 as <-.
  rewrite (merge_dimension_len _ _ _ _ _ _ Kpay Hm9).
  unfold join_organizations, merge_organizations, organizations_renamed in H8.
  inv_bind H8 m8 Hm8. injection H8 as <-.
  rewrite (merge_dimension_len _ _ _ _ _ _ Korg Hm8).
  unfold join_providers, merge_providers, providers_renamed in H7.
  inv_bind H7 m7 Hm7. injection H7 as <-.
  rewrite (merge_dimension_len _ _ _ _ _ _ Kprov Hm7).
  unfold join_patients, merge_patients, patients_renamed in H6.
  inv_bind H6 m6 Hm6. injection H6 as <-.
  rewrite (merge_dimension_len _ _ _ _ _ _ Kpat Hm6).
  rewrite (join_encounters_len _ _ _ Kenc H5).
  now apply join_claims_len.
Qed.

(** Whatever the keys, no transaction is lost on the way. *)
Lemma join_tables_keeps_transactions (t : Tables) (out : DataFrame) :
  join_tables t = OK out -> len (claims_transactions t) <= len out.
Proof.
  intros H. unfold join_tables in H.
  inv_bind H pa Hpa. inv_bind H ca Hca. inv_bind H ma Hma.
  inv_bind H j4 H4. inv_bind H j5 H5. inv_bind H j6 H6. inv_bind H j7 H7.
  inv_bind H j8 H8. inv_bind H j9 H9.
  inv_bind H j10 H10. inv_bind H j11 H11. inv_bind H j12 H12.
  injection H as <-.
  assert (Hclean : len (cleanup j12) = len j12).
  { unfold cleanup. destruct (duplicate_cols j12); [reflexivity | apply drop_len]. }
  unfold join_claims in H4. apply merge_len_ge in H4.
  unfold join_encounters in H5. apply merge_len_ge in H5.
  unfold join_patients, merge_patients in H6. inv_bind H6 m6 Hm6. injection H6 as <-.
  unfold join_providers, merge_providers in H7. inv_bind H7 m7 Hm7. injection H7 as <-.
  unfold join_organizations, merge_organizations in H8. inv_bind H8 m8 Hm8.
  injection H8 as <-.
  unfold join_payers, merge_payers in H9. inv_bind H9 m9 Hm9. injection H9 as <-.
  unfold join_procedures, join_clinical, merge_clinical in H10. inv_bind H10 m10 Hm10.
  injection H10 as <-.
  unfold join_conditions, join_clinical, merge_clinical in H11. inv_bind H11 m11 Hm11.
  injection H11 as <-.
  unfold join_medications, join_clinical, merge_clinical in H12. inv_bind H12 m12 Hm12.
  injection H12 as <-.
  apply merge_len_ge in Hm6, Hm7, Hm8, Hm9, Hm10, Hm11, Hm12.
  rewrite drop_len in *. lia.
Qed.

Lemma row_count_preservation_witness :
  keyed_by_Id Samples.sample_tables = true /\
  exists out,
    join_tables Samples.sample_tables = OK out /\
    len out = len (claims_transactions Samples.sample_tables).
Proof.
  split; [reflexivity |].
  eexists. split; [vm_compute; reflexivity |].
  apply (row_count_preservation Samples.sample_tables); reflexivity.
Defined.

(** ** Duplicate keys in a right-hand table *)





(** ** The aggregated codes and descriptions *)










(** The example of the specification: three facts of [(P1, E1)], the second
    with a blank description. *)
Example aggregate_flu_cold :
  clinical_agg "PROCEDURE_CODES" "PROCEDURE_DESCRIPTIONS"
    (parse_csv (mkCsv ["PATIENT"; "ENCOUNTER"; "CODE"; "DESCRIPTION"]
                      [["P1"; "E1"; "123"; "Flu"];
                       ["P1"; "E1"; "456"; ""];
                       ["P1"; "E1"; "789"; "Cold"]]))
  = OK (mkDataFrame
          ["PATIENT"; "ENCOUNTER"; "PROCEDURE_CODES"; "PROCEDURE_DESCRIPTIONS"]
          [[Some "P1"; Some "E1"; Some "123|456|789"; Some "Flu|Cold"]]).
Proof. reflexivity. Qed.

(** ** Prefixing the columns of a reference table *)

Lemma length_append (a b : string) :
  String.length (a ++ b) = String.length a + String.length b.
Proof. induction a as [| x a IH]; simpl; [reflexivity | now rewrite IH]. Qed.

Lemma append_not_self (a b : string) : a <> ""%string -> (a ++ b)%string <> b.
Proof.
  intros Ha E. apply (f_equal String.length) in E. rewrite length_append in E.
  destruct a; [now apply Ha | simpl in E; lia].
Qed.

Lemma dimension_prefix_not_Id (prefix col : string) :
  In prefix dimension_prefixes -> ((prefix ++ col)%string =? "Id")%string = false.
Proof.
  unfold dimension_prefixes. simpl.
  intros [<- | [<- | [<- | [<- | []]]]]; reflexivity.
Qed.

Lemma dimension_prefix_not_empty (prefix : string) :
  In prefix dimension_prefixes -> prefix <> ""%string.
Proof.
  unfold dimension_prefixes. simpl.
  intros [<- | [<- | [<- | [<- | []]]]]; discriminate.
Qed.

Lemma prefixed_twice (prefix col : string) :
  In prefix dimension_prefixes ->
  prefixed prefix (prefixed prefix col)
  = if (col =? "Id")%string then "Id"%string else (prefix ++ (prefix ++ col))%string.
Proof.
  intros Hp. unfold prefixed.
  destruct (String.eqb_spec col "Id") as [-> | Hne]; [reflexivity |].
  simpl negb. cbv iota. now rewrite (dimension_prefix_not_Id _ _ Hp).
Qed.

(** C4, as the code has it.  For each of the four prefixes of step 2: the
    renaming leaves [Id] and prefixes every other label, and changes no row;
    run on its own result it prefixes those labels again, so that two runs
    equal one run exactly when the table has no column but [Id]. *)
Theorem prefix_columns_twice (prefix : string) (df : DataFrame) :
  In prefix dimension_prefixes ->
  columns (prefix_columns prefix df)
  = map (fun col => if (col =? "Id")%string then "Id"%string else (prefix ++ col)%string)
        (columns df)
  /\ columns (prefix_columns prefix (prefix_columns prefix df))
     = map (fun col => if (col =? "Id")%string then "Id"%string
                       else (prefix ++ (prefix ++ col))%string)
           (columns df)
  /\ rows (prefix_columns prefix (prefix_columns prefix df)) = rows df
  /\ (prefix_columns prefix (prefix_columns prefix df) = prefix_columns prefix df
      <-> Forall (fun col => col = "Id"%string) (columns df)).
Proof.
  intros Hp.
  assert (H1 : columns (prefix_columns prefix df)
               = map (fun col => if (col =? "Id")%string then "Id"%string
                                 else (prefix ++ col)%string) (columns df)).
  { rewrite prefix_columns_columns. apply map_ext. intros c. unfold prefixed.
    destruct (String.eqb_spec c "Id") as [-> | _]; reflexivity. }
  assert (H2 : columns (prefix_columns prefix (prefix_columns prefix df))
               = map (fun col => if (col =? "Id")%string then "Id"%string
                                 else (prefix ++ (prefix ++ col))%string) (columns df)).
  { rewrite !prefix_columns_columns, map_map. apply map_ext. intros c.
    now apply prefixed_twice. }
  split; [exact H1 |]. split; [exact H2 |]. split; [reflexivity |].
  split.
  - intros E. apply (f_equal columns) in E. rewrite H1, H2 in E.
    apply Forall_forall. intros c Hc.
    assert (Hc' : (if (c =? "Id")%string then "Id"%string
                   else (prefix ++ (prefix ++ c))%string)
                  = (if (c =? "Id")%string then "Id"%string else (prefix ++ c)%string)).
    { clear - E Hc. induction (columns df) as [| x l IH]; [contradiction |].
      simpl in E. injection E as Ex El. destruct Hc as [-> | Hc]; auto. }
    destruct (String.eqb_spec c "Id") as [-> | Hne]; [reflexivity |].
    exfalso. revert Hc'. apply append_not_self. now apply dimension_prefix_not_empty.
  - intros Hall.
    assert (Hid : forall d : DataFrame,
               Forall (fun col => col = "Id"%string) (columns d) ->
               prefix_columns prefix d = d).
    { intros d Hd. destruct d as [cols rs].
      unfold prefix_columns, rename. simpl in *. f_equal.
      change (columns (prefix_columns prefix (mkDataFrame cols rs)) = cols).
      rewrite prefix_columns_columns. simpl.
      rewrite <- (map_id cols) at 2. apply map_ext_in. intros c Hc.
      rewrite Forall_forall in Hd. now rewrite (Hd c Hc). }
    now rewrite !(Hid df Hall).
Qed.

Lemma prefix_columns_twice_witness :
  columns (prefix_columns "PATIENT_" (prefix_columns "PATIENT_" Samples.sample_patients))
  = ["Id"; "PATIENT_PATIENT_LAST"].
Proof.
  apply (prefix_columns_twice "PATIENT_" Samples.sample_patients).
  simpl. now left.
Defined.

(** The claim C4 fails on the script: a second run of the renaming gives
    [PATIENT_PATIENT_LAST] where the first gave [PATIENT_LAST]. *)
Lemma prefix_columns_not_idempotent :
  prefix_columns "PATIENT_" (prefix_columns "PATIENT_" Samples.sample_patients)
  <> prefix_columns "PATIENT_" Samples.sample_patients.
Proof. vm_compute. discriminate. Qed.

(** ** The clean-up of step 11 *)

Lemma mem_In (c : string) (labels : list string) : mem c labels = true <-> In c labels.
Proof.
  unfold mem. rewrite existsb_exists. split.
  - intros (x & Hx & E). apply String.eqb_eq in E. now subst.
  - intros H. exists c. split; [assumption | apply String.eqb_refl].
Qed.

Lemma mem_filter (P : string -> bool) (labels : list string) (c : string) :
  In c labels -> mem c (filter P labels) = P c.
Proof.
  intros Hc. destruct (P c) eqn:E.
  - apply mem_In, filter_In. now split.
  - destruct (mem c (filter P labels)) eqn:M; [| reflexivity].
    apply mem_In, filter_In in M as [_ M]. congruence.
Qed.

Lemma select_filter {A : Type} (P : A -> bool) (l : list A) :
  select (map P l) l = filter P l.
Proof.
  induction l as [| a l IH]; simpl; [reflexivity |].
  destruct (P a); now rewrite IH.
Qed.

Lemma select_all {A : Type} (mask : list bool) (l : list A) :
  Forall (fun b => b = true) mask -> List.length l = List.length mask ->
  select mask l = l.
Proof.
  revert l. induction mask as [| b mask IH]; intros [| a l] Hall Hlen;
    simpl in *; try reflexivity; try discriminate.
  inversion Hall as [| ? ? -> Hmask]; subst. f_equal. apply IH; [assumption | lia].
Qed.

Lemma filter_nil_all_false {A : Type} (P : A -> bool) (l : list A) :
  filter P l = [] -> forall a, In a l -> P a = false.
Proof.
  induction l as [| x l IH]; simpl; intros H a Ha; [contradiction |].
  destruct (P x) eqn:E; [discriminate |].
  destruct Ha as [-> | Ha]; [assumption | now apply IH].
Qed.

Lemma drop_filter_mask (P : string -> bool) (df : DataFrame) :
  map (fun c => negb (mem c (filter P (columns df)))) (columns df)
  = map (fun c => negb (P c)) (columns df).
Proof. apply map_ext_in. intros c Hc. now rewrite mem_filter. Qed.

Lemma cleanup_columns (joined : DataFrame) :
  columns (cleanup joined)
  = filter (fun col => negb (conflict_marker col)) (columns joined).
Proof.
  unfold cleanup, duplicate_cols.
  destruct (filter conflict_marker (columns joined)) as [| c cs] eqn:E.
  - symmetry. rewrite <- (select_filter (fun col => negb (conflict_marker col))).
    apply select_all; [| now rewrite length_map].
    apply Forall_forall. intros b Hb. apply in_map_iff in Hb as (c & <- & Hc).
    now rewrite (filter_nil_all_false _ _ E c Hc).
  - rewrite <- E. unfold drop. simpl columns.
    rewrite drop_filter_mask. apply select_filter.
Qed.



(** The markers of the clean-up are the two default suffixes only: a label
    that took the right suffix of a later join stays.  Here the [PATIENT]
    column of the procedures, met by the [PATIENT] column of the
    encounters. *)
Example later_suffix_stays :
  exists out,
    join_tables Samples.sample_tables = OK out /\ In "PATIENT_PROC"%string (columns out).
Proof. eexists. split; [vm_compute; reflexivity | simpl; tauto]. Qed.


(** ** Loading *)

Lemma io_bind_load {A : Type} (filename : string) (k : DataFrame -> IO A)
    (fs : filesystem) :
  io_bind (load_csv data_dir filename) k fs
  = match fs (path_of filename) with
    | Some f => k (parse_csv f) fs
    | None => (Raise (FileNotFoundError (path_of filename)), fs)
    end.
Proof.
  unfold io_bind, load_csv, read_csv, path_of.
  destruct (fs (data_dir ++ "/" ++ filename)%string); reflexivity.
Qed.

Ltac missing_here name :=
  exists name; split; [simpl; tauto | split; [assumption | reflexivity]].

Lemma load_tables_missing (fs : filesystem) (name : string) :
  In name input_files ->
  fs (path_of name) = None ->
  exists missing,
    In missing input_files /\
    fs (path_of missing) = None /\
    load_tables fs = (Raise (FileNotFoundError (path_of missing)), fs).
Proof.
  intros Hin Hnone. unfold load_tables.
  rewrite io_bind_load.
  destruct (fs (path_of "claims.csv")) eqn:E1; [| missing_here "claims.csv"%string].
  rewrite io_bind_load.
  destruct (fs (path_of "claims_transactions.csv")) eqn:E2;
    [| missing_here "claims_transactions.csv"%string].
  rewrite io_bind_load.
  destruct (fs (path_of "encounters.csv")) eqn:E3; [| missing_here "encounters.csv"%string].
  rewrite io_bind_load.
  destruct (fs (path_of "patients.csv")) eqn:E4; [| missing_here "patients.csv"%string].
  rewrite io_bind_load.
  destruct (fs (path_of "providers.csv")) eqn:E5; [| missing_here "providers.csv"%string].
  rewrite io_bind_load.
  destruct (fs (path_of "organizations.csv")) eqn:E6;
    [| missing_here "organizations.csv"%string].
  rewrite io_bind_load.
  destruct (fs (path_of "payers.csv")) eqn:E7; [| missing_here "payers.csv"%string].
  rewrite io_bind_load.
  destruct (fs (path_of "procedures.csv")) eqn:E8; [| missing_here "procedures.csv"%string].
  rewrite io_bind_load.
  destruct (fs (path_of "conditions.csv")) eqn:E9; [| missing_here "conditions.csv"%string].
  rewrite io_bind_load.
  destruct (fs (path_of "medications.csv")) eqn:E10;
    [| missing_here "medications.csv"%string].
  exfalso. unfold input_files in Hin. simpl in Hin.
  repeat (destruct Hin as [<- | Hin]; [congruence |]). exact Hin.
Qed.

(** C6. One load gives the whole table of the file or raises
    [FileNotFoundError], and leaves the files as they are.  When one of the
    ten files of step 1 is absent, loading raises [FileNotFoundError] for an
    absent file: [main] ends with that error, raised by [load_tables], so
    with no table handed to the joins, and with the files as they were:
    nothing is written. *)
Theorem missing_file_aborts (fs : filesystem) (name : string) :
  In name input_files ->
  fs (path_of name) = None ->
  (forall filename,
      load_csv data_dir filename fs
      = match fs (path_of filename) with
        | Some f => (OK (mkDataFrame (header f) (map (map parse_field) (records f))), fs)
        | None => (Raise (FileNotFoundError (path_of filename)), fs)
        end)
  /\ exists missing,
       In missing input_files /\
       fs (path_of missing) = None /\
       load_tables fs = (Raise (FileNotFoundError (path_of missing)), fs) /\
       main fs = (Raise (FileNotFoundError (path_of missing)), fs).
Proof.
  intros Hin Hnone. split.
  - intros filename. unfold load_csv, read_csv, path_of.
    destruct (fs (data_dir ++ "/" ++ filename)%string); reflexivity.
  - destruct (load_tables_missing fs name Hin Hnone) as (missing & Hm & Hf & Hload).
    exists missing. repeat split; try assumption.
    unfold main, io_bind. now rewrite Hload.
Qed.

Lemma missing_file_aborts_witness :
  main Samples.sample_fs_missing
  = (Raise (FileNotFoundError "synthea_output/csv/patients.csv"), Samples.sample_fs_missing).
Proof.
  destruct (missing_file_aborts Samples.sample_fs_missing "patients.csv")
    as [_ (missing & Hin & Hnone & _ & Hmain)].
  - simpl. tauto.
  - reflexivity.
  - simpl in Hin.
    repeat (destruct Hin as [<- | Hin]; [try discriminate Hnone; try exact Hmain |]).
    contradiction.
Defined.

(** With the ten files in place the script runs to the end and writes its
    one file. *)
Example main_writes_output :
  exists joined fs',
    main Samples.sample_fs = (OK joined, fs') /\
    fs' output_file = Some (Samples.csv_of joined) /\
    len joined = 1.
Proof. eexists. eexists. split; [vm_compute; reflexivity | split; reflexivity]. Qed.

(** ** An empty fact table *)

Lemma append_empty (c : string) : (c ++ "")%string = c.
Proof. induction c as [| a c IH]; simpl; [reflexivity | now rewrite IH]. Qed.

(** With the empty left suffix, the labels of the left table stay as they
    are; a label of the right table takes the right suffix when the left
    table has it too. *)
Lemma merge_columns_left_kept (lcols rcols : list string) (suffix : string) :
  merge_columns lcols rcols ("", suffix)
  = lcols ++ map (overlap_suffix lcols suffix) rcols.
Proof.
  unfold merge_columns. simpl. f_equal.
  rewrite <- (map_id lcols) at 2. apply map_ext. intros c.
  unfold overlap_suffix. destruct (mem c rcols); [apply append_empty | reflexivity].
Qed.




(** ** A claim whose appointment is no encounter *)




(** ** Which pairs have an aggregate row *)




(** ** The left suffix of the later joins *)

Lemma merge_left_labels (left right : DataFrame) (left_on right_on : list string)
    (suffix : string) (m : DataFrame) :
  merge left right left_on right_on ("", suffix) = OK m ->
  columns m = columns left ++ map (overlap_suffix (columns left) suffix) (columns right).
Proof.
  intros H. apply merge_OK in H as (lidx & ridx & _ & _ & ->).
  apply merge_columns_left_kept.
Qed.

(** C10. In each of the eight joins after the first, the merge is run with
    the empty left suffix: the labels of its result are the labels of the
    left table, unchanged and in their order, followed by the labels of the
    right table, of which those the left table has too carry the right
    suffix of the join. *)
Theorem later_joins_keep_left_labels (t : Tables) (agg joined m : DataFrame) :
  (join_encounters t joined = OK m ->
   columns m = columns joined
               ++ map (overlap_suffix (columns joined) "_ENC") (columns (encounters_renamed t)))
  /\ (merge_patients t joined = OK m ->
      columns m = columns joined
                  ++ map (overlap_suffix (columns joined) "_PAT") (columns (patients_renamed t)))
  /\ (merge_providers t joined = OK m ->
      columns m = columns joined
                  ++ map (overlap_suffix (columns joined) "_PROV") (columns (providers_renamed t)))
  /\ (merge_organizations t joined = OK m ->
      columns m = columns joined
                  ++ map (overlap_suffix (columns joined) "_ORG")
                         (columns (organizations_renamed t)))
  /\ (merge_payers t joined = OK m ->
      columns m = columns joined
                  ++ map (overlap_suffix (columns joined) "_PAYER") (columns (payers_renamed t)))
  /\ (merge_clinical "_PROC" agg joined = OK m ->
      columns m = columns joined ++ map (overlap_suffix (columns joined) "_PROC") (columns agg))
  /\ (merge_clinical "_COND" agg joined = OK m ->
      columns m = columns joined ++ map (overlap_suffix (columns joined) "_COND") (columns agg))
  /\ (merge_clinical "_MED" agg joined = OK m ->
      columns m = columns joined ++ map (overlap_suffix (columns joined) "_MED") (columns agg)).
Proof.
  repeat split; apply merge_left_labels.
Qed.

Lemma later_joins_keep_left_labels_witness :
  columns (mkDataFrame ["Id"; "CLAIM_PATIENTID"; "Id_PAT"; "PATIENT_LAST"]
                       [[Some "T1"; Some "P1"; Some "P1"; Some "Ann"]])
  = ["Id"; "CLAIM_PATIENTID"]
    ++ map (overlap_suffix ["Id"; "CLAIM_PATIENTID"] "_PAT")
           (columns (patients_renamed Samples.sample_tables)).
Proof.
  apply (later_joins_keep_left_labels Samples.sample_tables
           (mkDataFrame [] [])
           (mkDataFrame ["Id"; "CLAIM_PATIENTID"] [[Some "T1"; Some "P1"]])).
  reflexivity.
Defined.

End JoinClaimsFacts.

(** * Further properties of the script *)

Module Extras.
Import Pandas JoinClaims Props Report MoreProps PandasFacts JoinClaimsFacts.

(** ** Rows as wide as the header *)

Lemma select_length {A B : Type} (mask : list bool) (l1 : list A) (l2 : list B) :
  List.length l1 = List.length l2 ->
  List.length (select mask l1) = List.length (select mask l2).
Proof.
  revert l1 l2. induction mask as [| b mask IH]; intros [| a l1] [| c l2] H;
    simpl in *; try reflexivity; try discriminate.
  - now destruct b.
  - injection H as H. destruct b; simpl; [f_equal |]; now apply IH.
Qed.

Lemma rectangular_drop (labels : list string) (df : DataFrame) :
  rectangular df -> rectangular (drop labels df).
Proof.
  unfold rectangular, drop. simpl. intros H.
  apply Forall_forall. intros r Hr. apply in_map_iff in Hr as (r0 & <- & Hr0).
  rewrite Forall_forall in H. apply select_length. now apply H.
Qed.

Lemma rectangular_rename (mapping : list (string * string)) (df : DataFrame) :
  rectangular df -> rectangular (rename mapping df).
Proof. unfold rectangular, rename. simpl. now rewrite length_map. Qed.

Lemma rectangular_prefix_columns (prefix : string) (df : DataFrame) :
  rectangular df -> rectangular (prefix_columns prefix df).
Proof. apply rectangular_rename. Qed.

Lemma merge_columns_length (lcols rcols : list string) (suffixes : string * string) :
  List.length (merge_columns lcols rcols suffixes) = List.length lcols + List.length rcols.
Proof. unfold merge_columns. now rewrite length_app, !length_map. Qed.

Lemma merge_row_In (lidx ridx : list nat) (w : nat) (rrows : list row) (l r : row) :
  In r (merge_row lidx ridx w rrows l) ->
  exists x, r = l ++ x /\ (x = repeat None w \/ In x rrows).
Proof.
  unfold merge_row. destruct (matches lidx ridx l rrows) as [| m ms] eqn:E.
  - intros [<- | []]. exists (repeat None w). auto.
  - intros H. apply in_map_iff in H as (x & <- & Hx). exists x. split; [reflexivity |].
    right. rewrite <- E in Hx. unfold matches in Hx. now apply filter_In in Hx as [Hx _].
Qed.

Lemma rectangular_merge (left right : DataFrame) (left_on right_on : list string)
    (suffixes : string * string) (m : DataFrame) :
  rectangular left -> rectangular right ->
  merge left right left_on right_on suffixes = OK m ->
  rectangular m.
Proof.
  intros Hl Hr H. apply merge_OK in H as (lidx & ridx & _ & _ & ->).
  unfold rectangular in *. simpl. rewrite merge_columns_length.
  rewrite Forall_forall in Hl, Hr. apply Forall_forall. intros r Hin.
  apply in_flat_map in Hin as (l & Hl0 & Hin).
  apply merge_row_In in Hin as (x & -> & Hx).
  rewrite length_app, (Hl l Hl0). f_equal.
  destruct Hx as [-> | Hx]; [apply repeat_length | now apply Hr].
Qed.

(** The aggregate of any fact table has rows of four cells. *)
Lemma rectangular_clinical_agg (codes descriptions : string) (facts agg : DataFrame) :
  clinical_agg codes descriptions facts = OK agg -> rectangular agg.
Proof.
  intros H. destruct (empty facts) eqn:Hne.
  - rewrite clinical_agg_empty in H by assumption. injection H as <-. constructor.
  - apply clinical_agg_nonempty in H as (pi & ei & ci & di & _ & _ & _ & _ & ->);
      [| assumption].
    unfold rectangular. simpl. apply Forall_forall. intros r Hr.
    apply in_map_iff in Hr as (k & <- & Hk).
    apply group_keys_length in Hk. rewrite length_app, Hk. reflexivity.
Qed.

Lemma rectangular_cleanup (joined : DataFrame) :
  rectangular joined -> rectangular (cleanup joined).
Proof.
  intros H. unfold cleanup. destruct (duplicate_cols joined); [assumption |].
  now apply rectangular_drop.
Qed.

Lemma rectangular_join_clinical (codes descriptions suffix : string)
    (facts agg joined out : DataFrame) :
  clinical_agg codes descriptions facts = OK agg ->
  rectangular joined ->
  join_clinical suffix agg joined = OK out ->
  rectangular out.
Proof.
  intros Hagg Hj H. unfold join_clinical, merge_clinical in H.
  inv_bind H m Hm. injection H as <-. apply rectangular_drop.
  eapply rectangular_merge; [exact Hj | | exact Hm].
  eapply rectangular_clinical_agg; eauto.
Qed.

Lemma rectangular_join_dimension (prefix key suffix : string) (dim joined m : DataFrame) :
  rectangular dim -> rectangular joined ->
  merge joined (prefix_columns prefix dim) [key] ["Id"] ("", suffix) = OK m ->
  rectangular (drop ["Id"] m).
Proof.
  intros Hd Hj H. apply rectangular_drop.
  eapply rectangular_merge; [exact Hj | | exact H].
  now apply rectangular_prefix_columns.
Qed.

(** X1. When the seven tables whose cells reach the result have rows as wide
    as their header, so has the joined table, whatever the shape of the
    three fact tables. *)
Theorem joined_table_rectangular (t : Tables) (out : DataFrame) :
  rectangular_tables t ->
  join_tables t = OK out ->
  rectangular out.
Proof.
  intros (Rc & Rt & Re & Rp & Rv & Ro & Ry) H. unfold join_tables in H.
  inv_bind H pa Hpa. inv_bind H ca Hca. inv_bind H ma Hma.
  inv_bind H j4 H4. inv_bind H j5 H5. inv_bind H j6 H6. inv_bind H j7 H7.
  inv_bind H j8 H8. inv_bind H j9 H9.
  inv_bind H j10 H10. inv_bind H j11 H11. inv_bind H j12 H12.
  injection H as <-. apply rectangular_cleanup.
  assert (R4 : rectangular j4).
  { unfold join_claims in H4. eapply rectangular_merge; [exact Rt | | exact H4].
    now apply rectangular_rename. }
  assert (R5 : rectangular j5).
  { unfold join_encounters in H5. eapply rectangular_merge; [exact R4 | | exact H5].
    now apply rectangular_rename. }
  assert (R6 : rectangular j6).
  { unfold join_patients, merge_patients, patients_renamed in H6.
    inv_bind H6 m Hm. injection H6 as <-.
    eapply rectangular_join_dimension; [exact Rp | exact R5 | exact Hm]. }
  assert (R7 : rectangular j7).
  { unfold join_providers, merge_providers, providers_renamed in H7.
    inv_bind H7 m Hm. injection H7 as <-.
    eapply rectangular_join_dimension; [exact Rv | exact R6 | exact Hm]. }
  assert (R8 : rectangular j8).
  { unfold join_organizations, merge_organizations, organizations_renamed in H8.
    inv_bind H8 m Hm. injection H8 as <-.
    eapply rectangular_join_dimension; [exact Ro | exact R7 | exact Hm]. }
  assert (R9 : rectangular j9).
  { unfold join_payers, merge_payers, payers_renamed in H9.
    inv_bind H9 m Hm. injection H9 as <-.
    eapply rectangular_join_dimension; [exact Ry | exact R8 | exact Hm]. }
  assert (R10 : rectangular j10)
    by (eapply rectangular_join_clinical; [exact Hpa | exact R9 | exact H10]).
  assert (R11 : rectangular j11)
    by (eapply rectangular_join_clinical; [exact Hca | exact R10 | exact H11]).
  eapply rectangular_join_clinical; [exact Hma | exact R11 | exact H12].
Qed.

Lemma sample_tables_rectangular : rectangular_tables Samples.sample_tables.
Proof. repeat split; repeat constructor. Qed.

Lemma joined_table_rectangular_witness :
  exists out, join_tables Samples.sample_tables = OK out /\ rectangular out.
Proof.
  eexists. split; [vm_compute; reflexivity |].
  apply (joined_table_rectangular Samples.sample_tables).
  - exact sample_tables_rectangular.
  - vm_compute. reflexivity.
Defined.

(** ** The prefixes keep the reference tables apart *)

(** X2. Two of the four reference tables, each under its own prefix, share
    no label but [Id]: a label found in both renamed tables is [Id]. *)
Theorem prefixed_labels_disjoint (p q : string) (d1 d2 : DataFrame) (c : string) :
  In p dimension_prefixes -> In q dimension_prefixes -> p <> q ->
  In c (columns (prefix_columns p d1)) ->
  In c (columns (prefix_columns q d2)) ->
  c = "Id"%string.
Proof.
  intros Hp Hq Hpq H1 H2.
  rewrite prefix_columns_columns in H1, H2.
  apply in_map_iff in H1 as (x & Hx & _). apply in_map_iff in H2 as (y & Hy & _).
  unfold prefixed in Hx, Hy.
  destruct (String.eqb x "Id") eqn:Ex; simpl in Hx.
  { apply String.eqb_eq in Ex. congruence. }
  destruct (String.eqb y "Id") eqn:Ey; simpl in Hy.
  { apply String.eqb_eq in Ey. congruence. }
  exfalso. subst c.
  unfold dimension_prefixes in Hp, Hq. simpl in Hp, Hq.
  destruct Hp as [<- | [<- | [<- | [<- | []]]]];
    destruct Hq as [<- | [<- | [<- | [<- | []]]]];
    try (now apply Hpq); simpl in Hy; discriminate Hy.
Qed.

Lemma prefixed_labels_disjoint_witness :
  columns (patients_renamed Samples.sample_tables) = ["Id"; "PATIENT_LAST"]
  /\ columns (payers_renamed Samples.sample_tables) = ["Id"; "PAYER_NAME"]
  /\ nth 0 (columns (patients_renamed Samples.sample_tables)) "" = "Id"%string.
Proof.
  split; [reflexivity |]. split; [reflexivity |].
  apply (prefixed_labels_disjoint "PATIENT_" "PAYER_"
           (patients Samples.sample_tables) (payers Samples.sample_tables)).
  - simpl. tauto.
  - simpl. tauto.
  - discriminate.
  - simpl. tauto.
  - simpl. tauto.
Defined.

(** ** What [main] leaves on the disk *)

Lemma load_tables_fs (fs : filesystem) : snd (load_tables fs) = fs.
Proof.
  unfold load_tables.
  repeat (rewrite io_bind_load;
          match goal with
          | |- context [fs (path_of ?n)] => destruct (fs (path_of n)); [| reflexivity]
          end).
  reflexivity.
Qed.

(** X3. A run of [main] that raises leaves every file as it was, whether a
    file was missing or a join failed.  A run that returns has loaded the
    ten tables, returns the table [join_tables] makes of them, has written
    that table, header and rows, to [joined_claims_data.csv], and has left
    every other path as it was. *)
Theorem main_writes_all_or_nothing (fs : filesystem) :
  (forall e fs', main fs = (Raise e, fs') -> fs' = fs)
  /\ (forall joined fs',
         main fs = (OK joined, fs') ->
         exists t,
           load_tables fs = (OK t, fs)
           /\ join_tables t = OK joined
           /\ fs' output_file
              = Some (mkCsv (columns joined) (map (map print_field) (rows joined)))
           /\ forall p, p <> output_file -> fs' p = fs p).
Proof.
  pose proof (load_tables_fs fs) as Hfs.
  unfold main, io_bind, lift.
  destruct (load_tables fs) as [[t | e0] fs0] eqn:Hload; simpl in Hfs; subst fs0.
  - destruct (join_tables t) as [joined0 | e1] eqn:Hjoin; split.
    + intros e fs' H. discriminate H.
    + intros joined fs' H. injection H as <- <-. exists t.
      split; [reflexivity |]. split; [assumption |]. split.
      * unfold to_csv, write_file. now rewrite String.eqb_refl.
      * intros p Hp. unfold to_csv, write_file.
        now destruct (String.eqb_spec p output_file).
    + intros e fs' H. now injection H as _ <-.
    + intros joined fs' H. discriminate H.
  - split.
    + intros e fs' H. now injection H as _ <-.
    + intros joined fs' H. discriminate H.
Qed.



(** ** Joins on a unique key are lookups *)







(** ** Labels the joined table never has *)

Lemma drop_columns (labels : list string) (df : DataFrame) :
  columns (drop labels df) = filter (fun c => negb (mem c labels)) (columns df).
Proof. unfold drop. simpl. apply select_filter. Qed.

Lemma drop_columns_In (labels : list string) (df : DataFrame) (c : string) :
  In c (columns (drop labels df)) <-> In c (columns df) /\ ~ In c labels.
Proof.
  rewrite drop_columns, filter_In, negb_true_iff. split; intros [H1 H2]; split; auto.
  - intros Hc. apply mem_In in Hc. congruence.
  - destruct (mem c labels) eqn:E; [| reflexivity]. apply mem_In in E. contradiction.
Qed.

Lemma cleanup_columns_In (joined : DataFrame) (c : string) :
  In c (columns (cleanup joined)) -> In c (columns joined).
Proof. rewrite cleanup_columns. intros H. now apply filter_In in H. Qed.

Lemma clinical_agg_columns (codes descriptions : string) (facts agg : DataFrame) :
  clinical_agg codes descriptions facts = OK agg ->
  columns agg = ["PATIENT"; "ENCOUNTER"; codes; descriptions].
Proof.
  intros H. destruct (empty facts) eqn:Hne.
  - rewrite clinical_agg_empty in H by assumption. now injection H as <-.
  - apply clinical_agg_nonempty in H as (pi & ei & ci & di & _ & _ & _ & _ & ->);
      [reflexivity | assumption].
Qed.

(** The labels a clinical join adds, each as it is or with the suffix of
    the join. *)
Lemma join_clinical_columns_In (codes descriptions suffix : string)
    (facts agg joined out : DataFrame) (c : string) :
  clinical_agg codes descriptions facts = OK agg ->
  join_clinical suffix agg joined = OK out ->
  In c (columns out) ->
  (In c (columns joined)
   \/ exists x, In x [codes; descriptions; "PATIENT"; "ENCOUNTER"]
                /\ (c = x \/ c = (x ++ suffix)%string))
  /\ c <> "PATIENT"%string /\ c <> "ENCOUNTER"%string.
Proof.
  intros Hagg H Hc. unfold join_clinical, merge_clinical in H.
  inv_bind H m Hm. injection H as <-.
  apply drop_columns_In in Hc as [Hc Hno].
  split; [| split; intros ->; apply Hno; simpl; tauto].
  rewrite (merge_left_labels _ _ _ _ _ _ Hm), (clinical_agg_columns _ _ _ _ Hagg) in Hc.
  apply in_app_or in Hc as [Hc | Hc]; [now left | right].
  apply in_map_iff in Hc as (x & <- & Hx). exists x. split; [simpl in *; tauto |].
  unfold overlap_suffix. destruct (mem x (columns joined)); auto.
Qed.

(** X6. The joined table never has a column labelled [Id], [PATIENT] or
    [ENCOUNTER]: each step drops these labels after its merge, on whichever
    side they came in, so that a column of the transactions, the claims or
    the encounters with one of these labels is lost with the key of the
    table joined. *)
Theorem joined_table_drops_key_labels (t : Tables) (out : DataFrame) :
  join_tables t = OK out ->
  ~ In "Id"%string (columns out)
  /\ ~ In "PATIENT"%string (columns out)
  /\ ~ In "ENCOUNTER"%string (columns out).
Proof.
  intros H. unfold join_tables in H.
  inv_bind H pa Hpa. inv_bind H ca Hca. inv_bind H ma Hma.
  inv_bind H j4 H4. inv_bind H j5 H5. inv_bind H j6 H6. inv_bind H j7 H7.
  inv_bind H j8 H8. inv_bind H j9 H9.
  inv_bind H j10 H10. inv_bind H j11 H11. inv_bind H j12 H12.
  injection H as <-.
  assert (N9 : ~ In "Id"%string (columns j9)).
  { unfold join_payers in H9. inv_bind H9 m Hm. injection H9 as <-.
    intros Hc. apply drop_columns_In in Hc as [_ Hc]. apply Hc. now left. }
  assert (Hstep : forall codes descriptions suffix facts agg joined res,
             In (codes, descriptions, suffix) fact_kinds ->
             clinical_agg codes descriptions facts = OK agg ->
             join_clinical suffix agg joined = OK res ->
             ~ In "Id"%string (columns joined) -> ~ In "Id"%string (columns res)).
  { intros codes descriptions suffix facts agg joined res Hk Hagg Hj Hno Hc.
    destruct (join_clinical_columns_In _ _ _ _ _ _ _ _ Hagg Hj Hc)
      as [[Hin | (x & Hx & Hcx)] _]; [now apply Hno |].
    unfold fact_kinds in Hk. simpl in Hk.
    destruct Hk as [E | [E | [E | []]]]; injection E as <- <- <-;
      simpl in Hx; destruct Hx as [<- | [<- | [<- | [<- | []]]]];
      destruct Hcx as [Hcx | Hcx]; discriminate Hcx. }
  unfold procedures_agg in Hpa. unfold conditions_agg in Hca.
  unfold medications_agg in Hma.
  unfold join_procedures in H10. unfold join_conditions in H11.
  unfold join_medications in H12.
  assert (N10 : ~ In "Id"%string (columns j10)).
  { apply (Hstep "PROCEDURE_CODES"%string "PROCEDURE_DESCRIPTIONS"%string "_PROC"%string
                 (procedures t) pa j9 j10); try assumption. simpl. tauto. }
  assert (N11 : ~ In "Id"%string (columns j11)).
  { apply (Hstep "CONDITION_CODES"%string "CONDITION_DESCRIPTIONS"%string "_COND"%string
                 (conditions t) ca j10 j11); try assumption. simpl. tauto. }
  assert (N12 : ~ In "Id"%string (columns j12)).
  { apply (Hstep "MEDICATION_CODES"%string "MEDICATION_DESCRIPTIONS"%string "_MED"%string
                 (medications t) ma j11 j12); try assumption. simpl. tauto. }
  split; [| split]; intros Hc; apply cleanup_columns_In in Hc.
  - now apply N12.
  - now destruct (join_clinical_columns_In _ _ _ _ _ _ _ _ Hma H12 Hc) as (_ & Hp & _).
  - now destruct (join_clinical_columns_In _ _ _ _ _ _ _ _ Hma H12 Hc) as (_ & _ & He).
Qed.

(** The encounters of the sample have a [PATIENT] column; the joined table
    has none. *)
Lemma joined_table_drops_key_labels_witness :
  In "PATIENT"%string (columns (encounters Samples.sample_tables))
  /\ exists out,
       join_tables Samples.sample_tables = OK out
       /\ ~ In "PATIENT"%string (columns out).
Proof.
  split; [simpl; tauto |].
  eexists. split; [vm_compute; reflexivity |].
  eapply (joined_table_drops_key_labels Samples.sample_tables). vm_compute. reflexivity.
Defined.

(** ** Writing a table and reading it back *)





(** ** Missing columns *)

Lemma get_loc_absent (c : string) (labels : list string) :
  ~ In c labels -> get_loc c labels = Raise (KeyError c).
Proof.
  intros H. unfold get_loc.
  now rewrite (proj1 (count_occ_not_In string_dec labels c) H).
Qed.

(** X8. When the transactions have no [CLAIMID] column, and the three
    aggregations succeed and the claims have their key (which pandas looks
    up before the key of the left table), the first join fails:
    [join_tables] raises [KeyError] for [CLAIMID]. *)
Theorem missing_claimid_raises (t : Tables) (pa ca ma : DataFrame) (ri : nat) :
  procedures_agg t = OK pa ->
  conditions_agg t = OK ca ->
  medications_agg t = OK ma ->
  get_loc "CLAIM_ID" (columns (claims_renamed t)) = OK ri ->
  ~ In "CLAIMID"%string (columns (claims_transactions t)) ->
  join_tables t = Raise (KeyError "CLAIMID").
Proof.
  intros Hpa Hca Hma _ Hno. unfold join_tables.
  rewrite Hpa, Hca, Hma. simpl.
  unfold join_claims, merge, get_locs. simpl.
  now rewrite (get_loc_absent _ _ Hno).
Qed.

Lemma missing_claimid_raises_witness :
  join_tables (mkTables Samples.sample_claims
                        (Samples.table ["ID"; "AMOUNT"] [["T1"; "10"]])
                        Samples.sample_encounters Samples.sample_patients
                        Samples.sample_providers Samples.sample_organizations
                        Samples.sample_payers
                        (Samples.table Samples.fact_labels [])
                        (Samples.table Samples.fact_labels [])
                        (Samples.table Samples.fact_labels []))
  = Raise (KeyError "CLAIMID").
Proof.
  eapply missing_claimid_raises; try reflexivity.
  simpl. intros [H | [H | []]]; discriminate H.
Defined.

Lemma clinical_agg_missing_code (codes descriptions : string) (facts : DataFrame)
    (pi ei : nat) :
  get_loc "PATIENT" (columns facts) = OK pi ->
  get_loc "ENCOUNTER" (columns facts) = OK ei ->
  ~ In "CODE"%string (columns facts) ->
  rows facts <> [] ->
  clinical_agg codes descriptions facts = Raise (KeyError "CODE").
Proof.
  intros Hp He Hno Hrows.
  assert (Hne : empty facts = false).
  { unfold empty. destruct (rows facts); [now elim Hrows |].
    destruct (columns facts); [discriminate Hp | reflexivity]. }
  unfold clinical_agg. rewrite Hne. simpl negb. cbv iota.
  unfold aggregate_clinical_data. rewrite Hne. unfold groupby_agg.
  rewrite (get_locs_2_intro _ _ _ _ _ Hp He).
  unfold get_locs. simpl. now rewrite (get_loc_absent _ _ Hno).
Qed.

(** X9. The columns of a fact table are looked at only when it has rows: a
    table with the two key columns, no [CODE] column and at least one row
    makes the aggregation raise [KeyError] for [CODE]; the same table
    without a row is aggregated, to the empty aggregate. *)
Theorem fact_columns_checked_when_nonempty (codes descriptions : string)
    (facts : DataFrame) (pi ei : nat) :
  get_loc "PATIENT" (columns facts) = OK pi ->
  get_loc "ENCOUNTER" (columns facts) = OK ei ->
  ~ In "CODE"%string (columns facts) ->
  (rows facts <> [] ->
   clinical_agg codes descriptions facts = Raise (KeyError "CODE"))
  /\ (rows facts = [] ->
      clinical_agg codes descriptions facts
      = OK (mkDataFrame ["PATIENT"; "ENCOUNTER"; codes; descriptions] [])).
Proof.
  intros Hp He Hno. split; intros Hrows.
  - now apply (clinical_agg_missing_code _ _ _ pi ei).
  - apply clinical_agg_empty. unfold empty. now rewrite Hrows.
Qed.

Lemma fact_columns_checked_when_nonempty_witness :
  clinical_agg "PROCEDURE_CODES" "PROCEDURE_DESCRIPTIONS"
               (Samples.table ["PATIENT"; "ENCOUNTER"; "DESCRIPTION"] [["P1"; "E1"; "Flu"]])
  = Raise (KeyError "CODE").
Proof.
  apply (fact_columns_checked_when_nonempty "PROCEDURE_CODES" "PROCEDURE_DESCRIPTIONS"
           (Samples.table ["PATIENT"; "ENCOUNTER"; "DESCRIPTION"] [["P1"; "E1"; "Flu"]])
           0 1).
  - reflexivity.
  - reflexivity.
  - simpl. intros [H | [H | [H | []]]]; discriminate H.
  - discriminate.
Defined.

(** ** The rows of an aggregate *)









(** ** The columns of [aggregate_clinical_data] *)

Lemma rename_label_other (mapping : list (string * string)) (c : string) :
  ~ In c (map fst mapping) -> rename_label mapping c = c.
Proof.
  unfold rename_label. induction mapping as [| [k v] mapping IH]; simpl; intros H;
    [reflexivity |].
  destruct (String.eqb_spec k c) as [-> | Hne]; [exfalso; apply H; now left |].
  apply IH. intros Hin. apply H. now right.
Qed.

(** X11. Called with a code column and a description column that differ and
    are no group column, [aggregate_clinical_data] returns a table with the
    same labels from both of its branches, the group columns followed by the
    two columns named with the suffix [_LIST], and with rows as wide as these
    labels; with an empty table it returns no row. *)
Theorem aggregate_clinical_data_columns (df agg : DataFrame) (group_cols : list string)
    (code_col desc_col : string) :
  code_col <> desc_col ->
  ~ In code_col group_cols ->
  ~ In desc_col group_cols ->
  aggregate_clinical_data df group_cols code_col desc_col = OK agg ->
  columns agg = group_cols ++ [(code_col ++ "_LIST")%string; (desc_col ++ "_LIST")%string]
  /\ rectangular agg
  /\ (empty df = true -> rows agg = []).
Proof.
  intros Hcd Hc Hd H. unfold aggregate_clinical_data in H.
  destruct (empty df) eqn:Hne.
  - injection H as <-. simpl. repeat split. constructor.
  - inv_bind H g Hg. injection H as <-.
    unfold groupby_agg in Hg. inv_bind Hg gidx Hgidx. inv_bind Hg aidx Haidx.
    injection Hg as <-.
    apply get_locs_2 in Haidx as (ci & di & _ & _ & ->).
    assert (Hlen : List.length gidx = List.length group_cols).
    { clear - Hgidx. unfold get_locs in Hgidx. revert gidx Hgidx.
      induction group_cols as [| c cs IH]; simpl; intros gidx H.
      - now injection H as <-.
      - inv_bind H i Hi. inv_bind H rest Hrest. injection H as <-.
        simpl. f_equal. now apply IH. }
    split; [| split; [| discriminate]].
    + simpl. rewrite map_app. f_equal.
      * rewrite <- (map_id group_cols) at 2. apply map_ext_in. intros x Hx.
        apply rename_label_other. simpl. intros [<- | [<- | []]]; contradiction.
      * unfold rename_label. simpl. rewrite String.eqb_refl.
        destruct (String.eqb_spec code_col desc_col) as [E | _]; [contradiction |].
        now rewrite String.eqb_refl.
    + unfold rectangular. simpl. apply Forall_forall. intros r Hr.
      apply in_map_iff in Hr as (k & <- & Hk).
      apply group_keys_length in Hk.
      rewrite length_map, !length_app, Hk, Hlen. reflexivity.
Qed.

Lemma aggregate_clinical_data_columns_witness :
  exists agg,
    aggregate_clinical_data (parse_csv Samples.sample_facts)
                            ["PATIENT"; "ENCOUNTER"] "CODE" "DESCRIPTION" = OK agg
    /\ columns agg = ["PATIENT"; "ENCOUNTER"; "CODE_LIST"; "DESCRIPTION_LIST"].
Proof.
  eexists. split; [vm_compute; reflexivity |].
  apply (aggregate_clinical_data_columns (parse_csv Samples.sample_facts) _
           ["PATIENT"; "ENCOUNTER"] "CODE" "DESCRIPTION").
  - discriminate.
  - simpl. intros [H | [H | []]]; discriminate H.
  - simpl. intros [H | [H | []]]; discriminate H.
  - reflexivity.
Defined.

(** ** The categories of the report *)

Lemma category_filter (joined : DataFrame) (c : string) (p : string -> bool)
    (cols : list string) :
  cols = filter p (columns joined) ->
  In c (columns joined) -> p c = true -> In c cols.
Proof. intros -> Hc Hp. apply filter_In. now split. Qed.

(** X12. In the report of [main], a column of the joined table whose label
    starts with [CLAIM_], [ENCOUNTER_], [PATIENT_], [PROVIDER_], [ORG_] or
    [PAYER_] is counted in the category of that prefix, and the six columns
    of the aggregates in the clinical one; every category lists columns of
    the joined table only, and a category with no column is not printed. *)
Theorem report_categories (joined : DataFrame) (c x : string) :
  In c (columns joined) ->
  (c = ("CLAIM_" ++ x)%string -> In c (category "Claim" joined))
  /\ (c = ("ENCOUNTER_" ++ x)%string -> In c (category "Encounter" joined))
  /\ (c = ("PATIENT_" ++ x)%string -> In c (category "Patient" joined))
  /\ (c = ("PROVIDER_" ++ x)%string -> In c (category "Provider" joined))
  /\ (c = ("ORG_" ++ x)%string -> In c (category "Organization" joined))
  /\ (c = ("PAYER_" ++ x)%string -> In c (category "Payer" joined))
  /\ (In c ["PROCEDURE_CODES"; "PROCEDURE_DESCRIPTIONS"; "CONDITION_CODES";
            "CONDITION_DESCRIPTIONS"; "MEDICATION_CODES"; "MEDICATION_DESCRIPTIONS"] ->
      In c (category "Clinical" joined))
  /\ Forall (fun '(_, cols) => incl cols (columns joined)) (col_categories joined)
  /\ Forall (fun '(_, n) => 0 < n) (category_counts joined).
Proof.
  intros Hc.
  repeat match goal with |- _ /\ _ => split end.
  - intros ->. eapply category_filter; [reflexivity | exact Hc | destruct x; reflexivity].
  - intros ->. eapply category_filter; [reflexivity | exact Hc | destruct x; reflexivity].
  - intros ->. eapply category_filter; [reflexivity | exact Hc | destruct x; reflexivity].
  - intros ->. eapply category_filter; [reflexivity | exact Hc | destruct x; reflexivity].
  - intros ->. eapply category_filter; [reflexivity | exact Hc | destruct x; reflexivity].
  - intros ->. eapply category_filter; [reflexivity | exact Hc | destruct x; reflexivity].
  - intros Hin. eapply category_filter; [reflexivity | exact Hc |].
    simpl in Hin.
    destruct Hin as [<- | [<- | [<- | [<- | [<- | [<- | []]]]]]]; reflexivity.
  - unfold col_categories.
    repeat constructor; intros y Hy; now apply filter_In in Hy.
  - unfold category_counts. apply Forall_forall. intros [name n] Hin.
    apply in_map_iff in Hin as ([name' cols] & E & Hin). injection E as <- <-.
    apply filter_In in Hin as [_ Hne]. destruct cols; [discriminate | simpl; lia].
Qed.

Lemma report_categories_witness :
  In "PATIENT_LAST"%string
     (category "Patient" (mkDataFrame ["ID"; "PATIENT_LAST"] [[Some "T1"; Some "Ann"]])).
Proof.
  apply (report_categories (mkDataFrame ["ID"; "PATIENT_LAST"] [[Some "T1"; Some "Ann"]])
           "PATIENT_LAST" "LAST").
  - simpl. tauto.
  - reflexivity.
Defined.

(** ** The joins work transaction by transaction *)










(** ** Running a step twice *)

Lemma filter_neg_nil {A : Type} (p : A -> bool) (l : list A) :
  filter p (filter (fun a => negb (p a)) l) = [].
Proof.
  induction l as [| a l IH]; simpl; [reflexivity |].
  destruct (p a) eqn:E; simpl; [exact IH | now rewrite E].
Qed.

(** X14. The clean-up of step 11 is idempotent: a table cleaned once is left
    as it is by a second clean-up. *)
Theorem cleanup_idempotent (joined : DataFrame) :
  cleanup (cleanup joined) = cleanup joined.
Proof.
  unfold cleanup at 1. unfold duplicate_cols.
  rewrite cleanup_columns, filter_neg_nil. reflexivity.
Qed.

(** X15. The aggregate of a kind of clinical fact cannot be aggregated
    again: as soon as it has a row, the aggregation raises [KeyError] for
    [CODE], the column it no longer has; an aggregate without rows gives the
    empty aggregate again. *)
Theorem aggregate_not_aggregated_again (codes descriptions suffix : string)
    (facts agg : DataFrame) :
  In (codes, descriptions, suffix) fact_kinds ->
  clinical_agg codes descriptions facts = OK agg ->
  (rows agg <> [] -> clinical_agg codes descriptions agg = Raise (KeyError "CODE"))
  /\ (rows agg = [] -> clinical_agg codes descriptions agg = OK agg).
Proof.
  intros Hk Hagg. pose proof (clinical_agg_columns _ _ _ _ Hagg) as Hcols.
  unfold fact_kinds in Hk. simpl in Hk. split; intros Hrows.
  - apply (clinical_agg_missing_code _ _ _ 0 1); try assumption; rewrite Hcols;
      destruct Hk as [E | [E | [E | []]]]; injection E as <- <- <-;
      try reflexivity; simpl; intros [H | [H | [H | [H | []]]]]; discriminate H.
  - rewrite clinical_agg_empty by (unfold empty; now rewrite Hrows).
    destruct agg as [cols rs]. simpl in *. now subst.
Qed.

Lemma aggregate_not_aggregated_again_witness :
  clinical_agg "PROCEDURE_CODES" "PROCEDURE_DESCRIPTIONS"
    (mkDataFrame ["PATIENT"; "ENCOUNTER"; "PROCEDURE_CODES"; "PROCEDURE_DESCRIPTIONS"]
                 [[Some "P0"; Some "E0"; Some "1"; Some "Exam"];
                  [Some "P1"; Some "E1"; Some "123|456|789"; Some "Flu|Cold"]])
  = Raise (KeyError "CODE").
Proof.
  apply (aggregate_not_aggregated_again "PROCEDURE_CODES" "PROCEDURE_DESCRIPTIONS" "_PROC"
           (parse_csv Samples.sample_facts)).
  - simpl. tauto.
  - reflexivity.
  - discriminate.
Defined.

(** ** Transactions without a patient or an encounter *)




(** ** No transaction is lost *)

(** X17. Whatever the keys of the tables, unique or not, found or not, the
    joined table has at least as many rows as the table of transactions:
    a left join drops no row, and no step after it does. *)
Theorem no_transaction_lost (t : Tables) (out : DataFrame) :
  join_tables t = OK out ->
  len (claims_transactions t) <= len out.
Proof. apply join_tables_keeps_transactions. Qed.

Lemma no_transaction_lost_witness :
  exists out,
    join_tables Samples.sample_tables_duplicate_provider = OK out
    /\ len (claims_transactions Samples.sample_tables_duplicate_provider) <= len out.
Proof.
  eexists. split; [vm_compute; reflexivity |].
  apply (no_transaction_lost Samples.sample_tables_duplicate_provider).
  vm_compute. reflexivity.
Defined.

End Extras.
